(** * Currency dashboard: exchange-rate snapshot, series table and headlines

    A shallow embedding of [cotacao_moedas_jan_25.py].  The script is glue
    code around four collaborators (the market-data provider, the HTTP
    client, the HTML parser and the translator).  Each collaborator is an
    oracle: an arbitrary function that either returns a value or raises.
    Python's exceptions are the [Raise] branch of the [result] monad, a
    [try]/[except Exception] block is [try_except], dictionaries are
    [gmap string pyval].

    Closing prices are exact rationals with one extra value [NaN] for a
    missing quote; binary rounding of floats is not modelled.  Formatting
    with [:.2f] and the Streamlit calls are kept as structured widgets
    that still carry the numbers they print. *)

From Stdlib Require Import ZArith QArith String List Lia Permutation.
From Stdlib Require Import DecimalString.
From stdpp Require Import base option list gmap strings.

Import ListNotations.
Local Open Scope string_scope.

(** ** Python values, exceptions and control flow *)

Module Py.

(** An exception object of a class derived from [Exception]: its class
    name and the text [str(e)] gives. *)
Record exn := Exn { exc_class : string; exc_str : string }.

Inductive result (A : Type) : Type :=
| Ok (a : A)
| Raise (e : exn).
Arguments Ok {A} a.
Arguments Raise {A} e.

Definition bind {A B} (m : result A) (k : A -> result B) : result B :=
  match m with
  | Ok a => k a
  | Raise e => Raise e
  end.

(** [try: body  except Exception as e: handler e] *)
Definition try_except {A} (body : result A) (handler : exn -> result A)
  : result A :=
  match body with
  | Ok a => Ok a
  | Raise e => handler e
  end.

(** The values the script stores in its result dictionaries. *)
Inductive pyval :=
| VStr (s : string)
| VNone.

(** Truth value of an optional string: [None] and the empty string are falsy. *)
Definition truthy_str (s : string) : bool :=
  match s with
  | EmptyString => false
  | String _ _ => true
  end.

Definition truthy (v : pyval) : bool :=
  match v with
  | VStr s => truthy_str s
  | VNone => false
  end.

Definition opt_to_val (o : option string) : pyval :=
  match o with
  | Some s => VStr s
  | None => VNone
  end.

(** [str(n)] for a non-negative integer. *)
Definition str_nat (n : nat) : string :=
  NilZero.string_of_uint (Nat.to_uint n).

(** *** Floats: exact rationals plus NaN *)

Inductive pyfloat :=
| Num (q : Q)
| NaN.

Definition is_zero (x : pyfloat) : bool :=
  match x with
  | Num q => Qeq_bool q 0
  | NaN => false
  end.

Definition sub (x y : pyfloat) : pyfloat :=
  match x, y with
  | Num a, Num b => Num (a - b)
  | _, _ => NaN
  end.

Definition mul (x y : pyfloat) : pyfloat :=
  match x, y with
  | Num a, Num b => Num (a * b)
  | _, _ => NaN
  end.

Definition ZeroDivisionError : exn :=
  Exn "ZeroDivisionError" "float division by zero".

(** The quotient of two floats when the divisor is not zero. *)
Definition quot (x y : pyfloat) : pyfloat :=
  match x, y with
  | Num a, Num b => Num (a / b)
  | _, _ => NaN
  end.

(** [x / y]: a zero divisor raises whatever the dividend is. *)
Definition div (x y : pyfloat) : result pyfloat :=
  if is_zero y then Raise ZeroDivisionError else Ok (quot x y).

(** [x > y]: every comparison with NaN is false. *)
Definition gt (x y : pyfloat) : bool :=
  match x, y with
  | Num a, Num b => negb (Qle_bool a b)
  | _, _ => false
  end.

(** Equality of two floats as numbers ([x == y] in Python). *)
Definition feq (x y : pyfloat) : Prop :=
  match x, y with
  | Num a, Num b => (a == b)%Q
  | _, _ => False
  end.

End Py.

Export Py.

Declare Scope py_scope.
Delimit Scope py_scope with py.
Notation "'let!' x ':=' m 'in' k" := (Py.bind m (fun x => k))
  (at level 10, x name, m at level 100, k at level 200) : py_scope.
Notation "'run!' m 'in' k" := (Py.bind m (fun _ => k))
  (at level 10, m at level 100, k at level 200) : py_scope.
Local Open Scope py_scope.

(** ** The part of pandas the script relies on *)

Module Pandas.

(** A date of the index, as a day number. *)
Definition date := Z.

(** A column of a table: one value per index entry. *)
Definition Series := list (date * pyfloat).

(** A table: its column labels and its rows, each row an index entry
    with one cell per column. *)
Record DataFrame := Frame {
  df_columns : list string;
  df_rows : list (date * list pyfloat)
}.

(** [pd.DataFrame()] *)
Definition empty_frame : DataFrame := Frame [] [].

(** [df.empty]: some axis has length zero. *)
Definition df_empty (df : DataFrame) : bool :=
  match df_columns df, df_rows df with
  | [], _ => true
  | _, [] => true
  | _ :: _, _ :: _ => false
  end.

(** [label in df.columns] *)
Definition has_column (label : string) (df : DataFrame) : bool :=
  bool_decide (label ∈ df_columns df).

Fixpoint position (label : string) (cols : list string) : option nat :=
  match cols with
  | [] => None
  | c :: cols' =>
      if String.eqb c label then Some 0
      else option_map S (position label cols')
  end.

Definition KeyError (label : string) : exn := Exn "KeyError" label.

(** [df[label]] *)
Definition getitem (df : DataFrame) (label : string) : result Series :=
  match position label (df_columns df) with
  | Some j => Ok (map (fun r => (fst r, nth j (snd r) NaN)) (df_rows df))
  | None => Raise (KeyError label)
  end.

Definition IndexError : exn :=
  Exn "IndexError" "single positional indexer is out-of-bounds".

(** [s.iloc[-k]] for [k >= 1]: the k-th value from the end. *)
Definition iloc_neg (s : Series) (k : nat) : result pyfloat :=
  match nth_error (rev s) (k - 1) with
  | Some r => Ok (snd r)
  | None => Raise IndexError
  end.

Definition s_index (s : Series) : list date := map fst s.

Definition s_at (s : Series) (d : date) : pyfloat :=
  match find (fun r => Z.eqb (fst r) d) s with
  | Some r => snd r
  | None => NaN
  end.

(** The index of a column-wise concatenation: the common index when
    all indexes agree, otherwise every date in order of first
    appearance. *)
Definition union_indexes (ixs : list (list date)) : list date :=
  match ixs with
  | [] => []
  | ix :: rest =>
      if forallb (fun ix' => bool_decide (ix' = ix)) rest then ix
      else remove_dups (concat ixs)
  end.

(** [pd.concat(data, axis=1, keys=keys)] for a non-empty [data]:
    one column per series, labelled by [keys], cells absent from a
    series left as NaN. *)
Definition concat_columns (data : list Series) (keys : list string)
  : DataFrame :=
  Frame keys
        (map (fun d => (d, map (fun s => s_at s d) data))
             (union_indexes (map s_index data))).

Definition length_mismatch (have new : nat) : exn :=
  Exn "ValueError"
      ("Length mismatch: Expected axis has " ++ str_nat have
       ++ " elements, new values have " ++ str_nat new ++ " elements").

(** The number of columns the cells of a table span. *)
Definition width (df : DataFrame) : nat := length (df_columns df).

(** [df.columns = labels] *)
Definition set_columns (df : DataFrame) (labels : list string)
  : result DataFrame :=
  if Nat.eqb (width df) (length labels)
  then Ok (Frame labels (df_rows df))
  else Raise (length_mismatch (width df) (length labels)).

End Pandas.

Export Pandas.

(** ** Rate snapshot: [get_dollar_data_real_time] and its display *)

Module Snapshot.

(** A [datetime], in seconds. *)
Definition datetime := Z.

Definition timedelta_days (n : Z) : Z := (n * 86400)%Z.

(** [t.date()] *)
Definition date_of (t : datetime) : date := (t / 86400)%Z.

(** [yf.download(ticker, start=..., end=..., progress=False)] *)
Definition provider := string -> date -> date -> result DataFrame.

(** The dictionary the fetcher returns; its three keys are fixed. *)
Record snapshot := Snap {
  last_close : option pyfloat;
  previous_close : option pyfloat;
  timestamp : datetime
}.

(** [now] is the reading of [datetime.now()], [now_sp] the later reading
    of [datetime.now(pytz.timezone("America/Sao_Paulo"))]. *)
Definition get_dollar_data_real_time
           (yf_download : provider) (now now_sp : datetime)
  : result (option snapshot) :=
  let end_date := now in
  let start_date := (end_date - timedelta_days 5)%Z in
  let! data := yf_download "USDBRL=X" (date_of start_date) (date_of end_date) in
  if negb (df_empty data) && has_column "Close" data then
    let! last :=
      (let! c := getitem data "Close" in
       if (0 <? length c)%nat
       then let! c' := getitem data "Close" in
            let! v := iloc_neg c' 1 in Ok (Some v)
       else Ok None) in
    let! previous :=
      (let! c := getitem data "Close" in
       if (1 <? length c)%nat
       then let! c' := getitem data "Close" in
            let! v := iloc_neg c' 2 in Ok (Some v)
       else Ok None) in
    let timestamp := now_sp in
    Ok (Some (Snap last previous timestamp))
  else Ok None.

(** What the page shows; numbers are kept as numbers. *)
Inductive widget :=
| Subheader (s : string)
| Quote (last : pyfloat)
| CollectedAt (t : datetime)
| Variation (direction : string) (variation percentage_change : pyfloat)
| Write (s : string).

Definition arrow_up : string := "↑".
Definition arrow_down : string := "↓".

Definition TypeError_format : exn :=
  Exn "TypeError" "unsupported format string passed to NoneType.__format__".

Definition TypeError_operand : exn :=
  Exn "TypeError" "unsupported operand type(s) for -: 'NoneType' and 'float'".

(** [f"{x:.2f}"] needs a number. *)
Definition format_2f (x : option pyfloat) : result pyfloat :=
  match x with
  | Some v => Ok v
  | None => Raise TypeError_format
  end.

(** [x - y] where [x] may be [None]. *)
Definition minus (x : option pyfloat) (y : pyfloat) : result pyfloat :=
  match x with
  | Some v => Ok (Py.sub v y)
  | None => Raise TypeError_operand
  end.

(** The block under [if dollar_data:]. *)
Definition show_snapshot (dollar_data : snapshot) : result (list widget) :=
  let! shown := format_2f (last_close dollar_data) in
  let head := [Subheader "Cotação Atual do Dólar"; Quote shown;
               CollectedAt (timestamp dollar_data)] in
  match previous_close dollar_data with
  | Some previous =>
      let! variation := minus (last_close dollar_data) previous in
      let! ratio := Py.div variation previous in
      let percentage_change := Py.mul ratio (Num 100) in
      let direction :=
        if Py.gt variation (Num 0) then arrow_up else arrow_down in
      Ok (head ++ [Variation direction variation percentage_change])%list
  | None =>
      Ok (head ++ [Write "Não foi possível calcular a variação."])%list
  end.

(** Lines 92 to 112 of the script. *)
Definition show_dollar (yf_download : provider) (now now_sp : datetime)
  : result (list widget) :=
  let! dollar_data := get_dollar_data_real_time yf_download now now_sp in
  match dollar_data with
  | Some d => show_snapshot d
  | None => Ok [Write "Dados do dólar não estão disponíveis no momento."]
  end.

(** The provider answers the fetcher's request, the five days that
    end today, with the table [df]. *)
Definition answers (yf_download : provider) (now : datetime)
           (df : DataFrame) : Prop :=
  yf_download "USDBRL=X" (date_of now - 5)%Z (date_of now) = Ok df.

(** The closing prices of a table, oldest first. *)
Definition closes (df : DataFrame) : list pyfloat :=
  match getitem df "Close" with
  | Ok s => map snd s
  | Raise _ => []
  end.

End Snapshot.

(** ** Headlines: [fetch_headline] *)

Module Headline.

Record Response := Resp { status_code : Z; text : string }.

(** A parsed document and an element of it, both kept as markup. *)
Definition Soup := string.
Definition Tag := string.

(** The collaborators one call of [fetch_headline] talks to.  Each may
    raise. *)
Record Web := {
  (** [requests.get(url, headers={"User-Agent": ua}, timeout=t)] *)
  requests_get : string -> string -> Z -> result Response;
  (** [response.raise_for_status()] *)
  raise_for_status : Response -> result unit;
  (** [BeautifulSoup(markup, 'html.parser')] *)
  BeautifulSoup : string -> result Soup;
  (** [soup.select_one(selector)] *)
  select_one : Soup -> string -> result (option Tag);
  (** [element.get_text(strip=True)] *)
  get_text : Tag -> result string;
  (** [GoogleTranslator(source=src, target=tgt).translate(text)] *)
  translate : string -> string -> string -> result string
}.

Definition user_agent : string :=
  "Mozilla/5.0 (Windows NT 10.0; Win64; x64) AppleWebKit/537.36 (KHTML, like Gecko) Chrome/91.0.4472.124 Safari/537.36".

Definition title_not_found : string := "Título não encontrado".

(** The two dictionaries [fetch_headline] builds. *)
Definition success_dict (site_name translated_title : string)
           (translated_subtitle : option string) : gmap string pyval :=
  <["site_name" := VStr site_name]>
    (<["translated_title" := VStr translated_title]>
       (<["translated_subtitle" := opt_to_val translated_subtitle]> ∅)).

Definition failure_dict (site_name : string) (e : exn) : gmap string pyval :=
  <["site_name" := VStr site_name]> (<["error" := VStr (exc_str e)]> ∅).

(** [select_one] followed by the conditional expression
    [el.get_text(strip=True) if el else default]. *)
Definition text_or (w : Web) (soup : Soup) (selector default : string)
  : result string :=
  let! element := select_one w soup selector in
  match element with
  | Some el => get_text w el
  | None => Ok default
  end.

(** Truth value of [subtitle_selector]. *)
Definition given (selector : option string) : option string :=
  match selector with
  | Some s => if truthy_str s then Some s else None
  | None => None
  end.

(** The text handed to the translator for the title. *)
Definition title_text (w : Web) (soup : Soup) (title_selector : string)
  : result string :=
  text_or w soup title_selector title_not_found.

(** The body of the [try] block. *)
Definition fetch_headline_try (w : Web)
           (site_name url title_selector : string)
           (subtitle_selector : option string) (translate_from : string)
  : result (gmap string pyval) :=
  let! response := requests_get w url user_agent 10 in
  run! raise_for_status w response in
  let! soup := BeautifulSoup w (text response) in
  let! title_text := title_text w soup title_selector in
  let! translated_title := translate w translate_from "pt" title_text in
  let! translated_subtitle :=
    match given subtitle_selector with
    | Some selector =>
        let! subtitle_text := text_or w soup selector EmptyString in
        if truthy_str subtitle_text
        then let! t := translate w translate_from "pt" subtitle_text in
             Ok (Some t)
        else Ok None
    | None => Ok None
    end in
  Ok (success_dict site_name translated_title translated_subtitle).

Definition fetch_headline (w : Web)
           (site_name url title_selector : string)
           (subtitle_selector : option string) (translate_from : string)
  : result (gmap string pyval) :=
  try_except
    (fetch_headline_try w site_name url title_selector
                        subtitle_selector translate_from)
    (fun e => Ok (failure_dict site_name e)).

(** The request, the status check and the parser all succeed and give
    the page [soup]. *)
Definition fetched (w : Web) (url : string) (soup : Soup) : Prop :=
  exists response,
    requests_get w url user_agent 10 = Ok response
    /\ raise_for_status w response = Ok tt
    /\ BeautifulSoup w (text response) = Ok soup.

(** The page has no usable text under [selector]: no element matches, or
    the first match has empty text. *)
Definition no_text (w : Web) (soup : Soup) (selector : string) : Prop :=
  select_one w soup selector = Ok None
  \/ exists element, select_one w soup selector = Ok (Some element)
                     /\ get_text w element = Ok EmptyString.


Definition is_success (d : gmap string pyval) : Prop :=
  dom d = ({["site_name"; "translated_title"; "translated_subtitle"]}
           : gset string).

(** ["error" in result] *)
Definition has_error (d : gmap string pyval) : bool :=
  bool_decide (is_Some (d !! "error")).

End Headline.

(** ** The site table and the thread pool *)

Module Orchestrator.
Import Headline.

(** One entry of [sites].  The keys [name], [url] and [title_selector]
    are always there; [subtitle_selector] may hold [None] and
    [translate_from] may be missing. *)
Record site := Site {
  name : string;
  url : string;
  title_selector : string;
  subtitle_selector : option string;
  translate_from : option string
}.

Definition sites : list site :=
  [ Site "ABC News" "https://abcnews.go.com/"
         "h2.PFoxV.eBpQD.rcQBv.bQtjQ.lQUdN.GpQCA.mAkiF.FvMyr.WvoqU.nPLLM.tuAKv.ZfQkn.GdxUi"
         None None;
    Site "Capital and Main" "https://capitalandmain.com" "h2" (Some "p") None;
    Site "CNN Business" "https://www.cnn.com/business"
         "span.container__headline-text" None None;
    Site "Europe - BBC Business" "https://www.bbc.com/news/business"
         "h2[data-testid='card-headline']"
         (Some "p[data-testid='card-description']") None;
    Site "China - South China Morning Post" "https://www.scmp.com"
         "span[data-qa='ContentHeadline-Headline']"
         (Some "h3[data-qa='ContentSummary-ContainerWithTag']") None;
    Site "Argentina - Clarín" "https://www.clarin.com/" "h2.title"
         (Some "div.bottomSummary p.bajada") (Some "es") ].

(** The function mapped over [sites]; [site.get("translate_from", "en")]
    supplies the default. *)
Definition task (w : Web) (s : site) : result (gmap string pyval) :=
  fetch_headline w (name s) (url s) (title_selector s)
                 (subtitle_selector s)
                 (default "en" (translate_from s)).

(** The pool.  Task [i] talks to [webs i].  [futures] holds the
    outcome of every task that has finished, under its submission
    index. *)
Section Pool.
Variable webs : nat -> Web.
Variable submitted : list site.

Definition futures := gmap nat (result (gmap string pyval)).

(** A worker finishes task [i]. *)
Definition finish (fs : futures) (i : nat) : futures :=
  match submitted !! i with
  | Some s => <[i := task (webs i) s]> fs
  | None => fs
  end.

(** The workers finish tasks in the order [schedule] lists them. *)
Definition run (schedule : list nat) : futures :=
  foldl finish ∅ schedule.

(** The iterator [executor.map] returns: the results of the futures
    in submission order, from index [i] on for [n] futures.  [None]:
    a future that never finishes; [Some (Raise e)]: a future whose
    task raised. *)
Fixpoint result_iterator (fs : futures) (i n : nat)
  : option (result (list (gmap string pyval))) :=
  match n with
  | O => Some (Ok [])
  | S n' =>
      match fs !! i with
      | None => None
      | Some (Raise e) => Some (Raise e)
      | Some (Ok d) =>
          match result_iterator fs (S i) n' with
          | None => None
          | Some (Raise e) => Some (Raise e)
          | Some (Ok ds) => Some (Ok (d :: ds))
          end
      end
  end.

(** [list(executor.map(task, submitted))] under a schedule. *)
Definition executor_map (schedule : list nat)
  : option (result (list (gmap string pyval))) :=
  result_iterator (run schedule) 0 (length submitted).
End Pool.

(** Every submitted task finishes, once. *)
Definition complete (schedule : list nat) (n : nat) : Prop :=
  Permutation schedule (seq 0 n).

(** The answers of task [k] replaced: its request fails with [e]. *)
Definition fail_fetch (e : exn) (w : Web) : Web :=
  {| requests_get := fun _ _ _ => Raise e;
     raise_for_status := raise_for_status w;
     BeautifulSoup := BeautifulSoup w;
     select_one := select_one w;
     get_text := get_text w;
     translate := translate w |}.

Definition inject_failure (k : nat) (e : exn) (webs : nat -> Web)
  : nat -> Web :=
  fun i => if Nat.eqb i k then fail_fetch e (webs i) else webs i.

(** What the page writes for the results, in the order it receives
    them. *)
Inductive line :=
| ErrorLine (site_name error : pyval)
| Heading (site_name : pyval)
| TitleLine (title : pyval)
| SubtitleLine (subtitle : pyval)
| Blank.

Definition item (d : gmap string pyval) (key : string) : result pyval :=
  match d !! key with
  | Some v => Ok v
  | None => Raise (Exn "KeyError" key)
  end.

Definition show_result (d : gmap string pyval) : result (list line) :=
  if has_error d then
    let! n := item d "site_name" in
    let! e := item d "error" in
    Ok [ErrorLine n e]
  else
    let! n := item d "site_name" in
    let! t := item d "translated_title" in
    let! s := item d "translated_subtitle" in
    Ok ([Heading n; TitleLine t]
          ++ (if truthy s then [SubtitleLine s] else []) ++ [Blank])%list.

(** The loop [for result in results]. *)
Fixpoint show_results (results : list (gmap string pyval))
  : result (list line) :=
  match results with
  | [] => Ok []
  | r :: rest =>
      let! block := show_result r in
      let! blocks := show_results rest in
      Ok (block ++ blocks)%list
  end.

(** Lines 246 to 266: the pool runs the tasks, then the page walks over
    the results.  [None]: the pool never hands the results over. *)
Definition headlines_section (webs : nat -> Web) (submitted : list site)
           (schedule : list nat) : option (result (list line)) :=
  match executor_map webs submitted schedule with
  | None => None
  | Some (Raise e) => Some (Raise e)
  | Some (Ok results) => Some (show_results results)
  end.

End Orchestrator.

(** ** Series table: [download_currency_data] and [display_currency_data] *)

Module Series.
Import Snapshot.

(** [ticker_labels], in the order the dictionary literal lists it. *)
Definition ticker_labels : list (string * string) :=
  [ ("USDBRL=X", "Real (BRL)");
    ("USDARS=X", "Peso Argentino (ARS)");
    ("USDMXN=X", "Peso Mexicano (MXN)");
    ("USDCNY=X", "Yuan Chinês (CNY)");
    ("USDINR=X", "Rúpia Indiana (INR)") ].

(** [list(ticker_labels.keys())] *)
Definition tickers : list string := map fst ticker_labels.

(** [ticker_labels[ticker]] *)
Definition label_of (ticker : string) : result string :=
  match find (fun kv => String.eqb (fst kv) ticker) ticker_labels with
  | Some kv => Ok (snd kv)
  | None => Raise (KeyError ticker)
  end.

(** [[ticker_labels[ticker] for ticker in selected_tickers]] *)
Fixpoint selected_labels (selected_tickers : list string)
  : result (list string) :=
  match selected_tickers with
  | [] => Ok []
  | t :: ts =>
      let! l := label_of t in
      let! ls := selected_labels ts in
      Ok (l :: ls)
  end.

(** The [for] loop of [download_currency_data], with the two lists it
    appends to. *)
Fixpoint download_loop (yf_download : provider) (tickers : list string)
         (start_date end_date : date)
         (data : list Pandas.Series) (columns : list string)
  : result (list Pandas.Series * list string) :=
  match tickers with
  | [] => Ok (data, columns)
  | ticker :: rest =>
      let! currency_data := yf_download ticker start_date end_date in
      if negb (df_empty currency_data) then
        let! close := getitem currency_data "Close" in
        download_loop yf_download rest start_date end_date
                      (data ++ [close])%list (columns ++ [ticker])%list
      else
        download_loop yf_download rest start_date end_date data columns
  end.

Definition download_currency_data (yf_download : provider)
           (tickers : list string) (start_date end_date : date)
  : result DataFrame :=
  let! dc := download_loop yf_download tickers start_date end_date [] [] in
  match fst dc with
  | _ :: _ => Ok (concat_columns (fst dc) (snd dc))
  | [] => Ok empty_frame
  end.

(** One line of the chart. *)
Record trace := Scatter {
  trace_name : string;
  trace_x : list date;
  trace_y : list pyfloat;
  trace_yaxis : string
}.

Inductive widget :=
| Subheader (s : string)
| Chart (traces : list trace)
| Write (s : string).

Definition ars : string := "Peso Argentino (ARS)".

Definition df_index (df : DataFrame) : list date := map fst (df_rows df).

Definition scatter (df : DataFrame) (column axis : string) : result trace :=
  let! y := getitem df column in
  Ok (Scatter column (df_index df) (map snd y) axis).

Fixpoint main_traces (df : DataFrame) (columns : list string)
  : result (list trace) :=
  match columns with
  | [] => Ok []
  | column :: rest =>
      if negb (String.eqb column ars) then
        let! t := scatter df column "y1" in
        let! ts := main_traces df rest in
        Ok (t :: ts)
      else main_traces df rest
  end.

(** Lines 126 to 131: the downloaded table with its columns
    relabelled, or [None] when the download is empty and the block
    returns early. *)
Definition relabelled (yf_download : provider)
           (selected_tickers selected_labels : list string)
           (start_date end_date : date) : result (option DataFrame) :=
  let! currency_data :=
    download_currency_data yf_download selected_tickers start_date end_date in
  if df_empty currency_data then Ok None
  else
    let! currency_data := set_columns currency_data selected_labels in
    Ok (Some currency_data).

(** The body of the [try] block of [display_currency_data].  No call
    that writes to the page is followed by one that can raise, so the
    widgets are collected at the end. *)
Definition display_try (yf_download : provider)
           (selected_tickers selected_labels : list string)
           (start_date end_date : date) : result (list widget) :=
  let! table :=
    relabelled yf_download selected_tickers selected_labels
               start_date end_date in
  match table with
  | None => Ok [Write "Nenhum dado disponível para o intervalo selecionado."]
  | Some processed_data =>
    if negb (df_empty processed_data) then
      let! main := main_traces processed_data (df_columns processed_data) in
      let! second :=
        if has_column ars processed_data
        then let! t := scatter processed_data ars "y2" in Ok [t]
        else Ok [] in
      Ok [Subheader "Gráfico de Linha Interativo: Valores Selecionados";
          Chart (main ++ second)]
    else
      Ok [Subheader "Gráfico de Linha Interativo: Valores Selecionados";
          Write "Nenhum dado disponível para o gráfico."]
  end.

Definition display_currency_data (yf_download : provider)
           (selected_tickers selected_labels : list string)
           (start_date end_date : date) : result (list widget) :=
  match selected_tickers with
  | _ :: _ =>
      try_except
        (display_try yf_download selected_tickers selected_labels
                     start_date end_date)
        (fun e => Ok [Write ("Erro ao baixar os dados: " ++ exc_str e)])
  | [] => Ok [Write "Por favor, selecione pelo menos uma moeda."]
  end.

(** Lines 115, 116 and 201: the labels are computed outside the
    [try] block. *)
Definition series_section (yf_download : provider)
           (selected_tickers : list string) (start_date end_date : date)
  : result (list widget) :=
  let! labels := selected_labels selected_tickers in
  display_currency_data yf_download selected_tickers labels
                        start_date end_date.

(** The provider has quotes for [ticker] in the period. *)
Definition has_data (yf_download : provider) (start_date end_date : date)
           (ticker : string) : bool :=
  match yf_download ticker start_date end_date with
  | Ok df => negb (df_empty df)
  | Raise _ => false
  end.

(** The provider answers every ticker of the list, and every table it
    answers with that is not empty has the closing-price column. *)
Definition well_answered (yf_download : provider)
           (start_date end_date : date) (tickers : list string) : Prop :=
  Forall (fun ticker =>
            exists df, yf_download ticker start_date end_date = Ok df
                       /\ (df_empty df = false ->
                           has_column "Close" df = true))
         tickers.

(** The closing-price column the loop keeps for a ticker. *)
Definition close_of (yf_download : provider) (start_date end_date : date)
           (ticker : string) : Pandas.Series :=
  match yf_download ticker start_date end_date with
  | Ok df => match getitem df "Close" with
             | Ok s => s
             | Raise _ => []
             end
  | Raise _ => []
  end.

End Series.

(** ** Sample inputs *)

Module Samples.
Import Snapshot Headline Orchestrator.

Definition quotes (rows : list (date * list pyfloat)) : DataFrame :=
  Frame ["Open"; "Close"] rows.

(** Two days: 5.00 then 5.10. *)
Definition two_days : DataFrame :=
  quotes [(19723%Z, [Num 4.98; Num 5.00]); (19724%Z, [Num 5.02; Num 5.10])].

Definition one_day : DataFrame :=
  quotes [(19724%Z, [Num 5.02; Num 5.10])].

(** The earlier close is zero. *)
Definition zero_then_quote : DataFrame :=
  quotes [(19723%Z, [Num 0; Num 0]); (19724%Z, [Num 5.02; Num 5.10])].

(** Two equal closes. *)
Definition flat_days : DataFrame :=
  quotes [(19723%Z, [Num 4.98; Num 5.00]); (19724%Z, [Num 5.02; Num 5.00])].

(** Three days that end like [two_days]. *)
Definition three_days : DataFrame :=
  quotes [(19722%Z, [Num 4.90; Num 4.95]); (19723%Z, [Num 4.98; Num 5.00]);
          (19724%Z, [Num 5.02; Num 5.10])].

(** The earlier day has no closing quote. *)
Definition gap_day : DataFrame :=
  quotes [(19723%Z, [Num 4.98; NaN]); (19724%Z, [Num 5.02; Num 5.10])].

Definition always (df : DataFrame) : provider := fun _ _ _ => Ok df.

Definition timeout_error : exn :=
  Exn "ReadTimeout" "HTTPSConnectionPool: Read timed out. (read timeout=10)".

Definition down : provider := fun _ _ _ => Raise timeout_error.

(** A site whose front page has a headline under [h2] and nothing
    under any other selector.  The translator marks what it is given. *)
Definition front_page : Web :=
  {| requests_get := fun _ _ _ => Ok (Resp 200 "<h2> Markets rally </h2>");
     raise_for_status := fun _ => Ok tt;
     BeautifulSoup := fun markup => Ok markup;
     select_one := fun soup selector =>
       if String.eqb selector "h2" then Ok (Some soup) else Ok None;
     get_text := fun _ => Ok "Markets rally";
     translate := fun _ target t => Ok ("[" ++ target ++ "] " ++ t) |}.

(** The same site when the translation service refuses every request. *)
Definition no_translator : Web :=
  {| requests_get := requests_get front_page;
     raise_for_status := raise_for_status front_page;
     BeautifulSoup := BeautifulSoup front_page;
     select_one := select_one front_page;
     get_text := get_text front_page;
     translate := fun _ _ _ =>
       Raise (Exn "TooManyRequests" "too many requests to the server") |}.

(** Quotes for the real only; every other ticker comes back as a table
    without rows. *)
Definition brl_only : provider :=
  fun ticker _ _ =>
    if String.eqb ticker "USDBRL=X" then Ok two_days else Ok (quotes []).

Definition three_sites : list site :=
  [ Site "First" "https://first.example" "h2" None None;
    Site "Second" "https://second.example" "h1" (Some "p") None;
    Site "Third" "https://third.example" "h2" (Some "p") (Some "es") ].

(** A front page with a headline under [h2] and a summary under [p]. *)
Definition with_summary : Web :=
  {| requests_get := requests_get front_page;
     raise_for_status := raise_for_status front_page;
     BeautifulSoup := BeautifulSoup front_page;
     select_one := fun soup selector =>
       if String.eqb selector "h2" then Ok (Some "<h2> Markets rally </h2>")
       else if String.eqb selector "p" then Ok (Some "<p>Stocks rose</p>")
       else Ok None;
     get_text := fun element =>
       if String.eqb element "<p>Stocks rose</p>" then Ok "Stocks rose"
       else Ok "Markets rally";
     translate := translate front_page |}.

(** The same page when the translator accepts the headline and refuses
    the summary. *)
Definition summary_refused : Web :=
  {| requests_get := requests_get with_summary;
     raise_for_status := raise_for_status with_summary;
     BeautifulSoup := BeautifulSoup with_summary;
     select_one := select_one with_summary;
     get_text := get_text with_summary;
     translate := fun source target t =>
       if String.eqb t "Stocks rose"
       then Raise (Exn "TooManyRequests" "too many requests to the server")
       else translate with_summary source target t |}.

(** A server that answers every request with status 503. *)
Definition unavailable_site : Web :=
  {| requests_get := fun _ _ _ => Ok (Resp 503 "Service Unavailable");
     raise_for_status := fun r =>
       if (400 <=? status_code r)%Z
       then Raise (Exn "HTTPError" "503 Server Error: Service Unavailable")
       else Ok tt;
     BeautifulSoup := BeautifulSoup front_page;
     select_one := select_one front_page;
     get_text := get_text front_page;
     translate := translate front_page |}.

(** Quotes for the real, an exception for every other ticker. *)
Definition brl_then_error : provider :=
  fun ticker _ _ =>
    if String.eqb ticker "USDBRL=X" then Ok two_days else Raise timeout_error.

End Samples.

(** * Properties *)

Local Close Scope string_scope.
Local Open Scope list_scope.

(** ** Tables *)

Section PandasFacts.

Lemma position_elem label cols :
  label ∈ cols -> exists j, position label cols = Some j.
Proof.
  induction cols as [|c cols IH]; intros Hin.
  - by apply elem_of_nil in Hin.
  - simpl. destruct (String.eqb c label) eqn:E; [by eexists|].
    apply elem_of_cons in Hin as [->|Hin].
    + by rewrite String.eqb_refl in E.
    + destruct (IH Hin) as [j ->]. by eexists.
Qed.

Lemma has_column_getitem label df :
  has_column label df = true ->
  exists s, getitem df label = Ok s /\ length s = length (df_rows df).
Proof.
  unfold has_column, getitem. intros H%bool_decide_eq_true.
  destruct (position_elem _ _ H) as [j ->].
  eexists; split; [reflexivity|]. by rewrite length_map.
Qed.

Lemma getitem_length label df s :
  getitem df label = Ok s -> length s = length (df_rows df).
Proof.
  unfold getitem. destruct (position label (df_columns df)); [|discriminate].
  intros [= <-]. by rewrite length_map.
Qed.

Lemma df_empty_false_rows df :
  df_empty df = false -> (0 < length (df_rows df))%nat.
Proof.
  unfold df_empty. destruct (df_columns df), (df_rows df); simpl;
    try discriminate; lia.
Qed.

Lemma iloc_neg_in_range (s : Pandas.Series) k :
  (1 <= k <= length s)%nat -> exists v, iloc_neg s k = Ok v.
Proof.
  intros Hk. unfold iloc_neg.
  destruct (nth_error (rev s) (k - 1)) as [r|] eqn:E; [by eexists|].
  apply nth_error_None in E. rewrite length_rev in E. lia.
Qed.

End PandasFacts.

(** ** Rate snapshot *)

Section SnapshotFacts.
Import Snapshot.

Variable yf_download : provider.
Variables now now_sp : datetime.

Local Abbreviation requested := (answers yf_download now).

Lemma date_of_start :
  date_of (now - timedelta_days 5)%Z = (date_of now - 5)%Z.
Proof.
  unfold date_of, timedelta_days.
  replace (now - 5 * 86400)%Z with (now + (-5) * 86400)%Z by lia.
  rewrite Z.div_add by lia. lia.
Qed.

Lemma position_elem_of label cols j :
  position label cols = Some j -> label ∈ cols.
Proof.
  revert j. induction cols as [|c cols IH]; intros j; simpl; [discriminate|].
  destruct (String.eqb c label) eqn:E.
  - apply String.eqb_eq in E as ->. intros _. apply elem_of_cons; by left.
  - destruct (position label cols) as [j'|]; [|discriminate].
    intros _. apply elem_of_cons; right. by eapply IH.
Qed.

Lemma iloc_neg_values (s : Pandas.Series) k :
  iloc_neg s k = match nth_error (rev (map snd s)) (k - 1) with
                 | Some v => Ok v
                 | None => Raise IndexError
                 end.
Proof.
  unfold iloc_neg. rewrite <- map_rev, nth_error_map.
  by destruct (nth_error (rev s) (k - 1)).
Qed.

(** A table with a closing price is not empty and has the column. *)
Lemma closes_cons_available df v vs :
  closes df = v :: vs ->
  exists s, getitem df "Close"%string = Ok s /\ map snd s = v :: vs
            /\ df_empty df = false /\ has_column "Close"%string df = true.
Proof.
  unfold closes. destruct (getitem df "Close"%string) as [s|e] eqn:G;
    [|discriminate].
  intros Hs. exists s. split; [done|]. split; [done|].
  pose proof (getitem_length _ _ _ G) as Hlen.
  assert (length s = S (length vs)) as Hl
      by (rewrite <- (length_map snd), Hs; reflexivity).
  unfold getitem in G.
  destruct (position "Close"%string (df_columns df)) as [j|] eqn:P;
    [|discriminate].
  pose proof (position_elem_of _ _ _ P) as Hin.
  split.
  - unfold df_empty. destruct (df_columns df) as [|c cs].
    + by apply elem_of_nil in Hin.
    + destruct (df_rows df); [simpl in Hlen; lia|done].
  - unfold has_column. by apply bool_decide_eq_true.
Qed.

(** The fetcher on a table that has at least two closing prices. *)
Lemma snapshot_two_points df older prev last :
  requested df ->
  closes df = older ++ [prev; last] ->
  get_dollar_data_real_time yf_download now now_sp
  = Ok (Some (Snap (Some last) (Some prev) now_sp)).
Proof.
  intros Hreq Hc. unfold get_dollar_data_real_time.
  rewrite date_of_start. red in Hreq. rewrite Hreq. simpl.
  destruct (older ++ [prev; last]) as [|v vs] eqn:Hsplit;
    [by destruct older|].
  destruct (closes_cons_available _ _ _ Hc) as (s & G & Hs & -> & ->).
  simpl. rewrite G. simpl.
  assert (length s = length older + 2)%nat as Hl.
  { rewrite <- (length_map snd), Hs, <- Hsplit, length_app. reflexivity. }
  destruct (0 <? length s)%nat eqn:E0; [|apply Nat.ltb_ge in E0; lia].
  destruct (1 <? length s)%nat eqn:E1; [|apply Nat.ltb_ge in E1; lia].
  simpl. rewrite !iloc_neg_values, Hs, <- Hsplit, rev_app_distr. reflexivity.
Qed.

(** The fetcher on a table with exactly one closing price. *)
Lemma snapshot_one_point df last :
  requested df ->
  closes df = [last] ->
  get_dollar_data_real_time yf_download now now_sp
  = Ok (Some (Snap (Some last) None now_sp)).
Proof.
  intros Hreq Hc. unfold get_dollar_data_real_time.
  rewrite date_of_start. red in Hreq. rewrite Hreq. simpl.
  destruct (closes_cons_available _ _ _ Hc) as (s & G & Hs & -> & ->).
  simpl. rewrite G. simpl.
  destruct s as [|r [|r' s']]; try discriminate.
  simpl in *. by injection Hs as ->.
Qed.

End SnapshotFacts.

Section SnapshotClaims.
Import Snapshot Samples.

Lemma gt_zero_false_of_feq v : feq v (Num 0) -> Py.gt v (Num 0) = false.
Proof.
  destruct v as [q|]; simpl; [|done].
  intros Hq. apply negb_false_iff, Qle_bool_iff. rewrite Hq. apply Qle_refl.
Qed.

(** What the page shows for two closing prices with a previous close
    that is not zero. *)
Lemma show_two_points (yf_download : provider) (now now_sp : datetime)
      df older prev last :
  answers yf_download now df ->
  closes df = older ++ [prev; last] ->
  is_zero prev = false ->
  show_dollar yf_download now now_sp
  = Ok [Subheader "Cotação Atual do Dólar"%string; Quote last;
        CollectedAt now_sp;
        Variation (if Py.gt (Py.sub last prev) (Num 0)
                   then arrow_up else arrow_down)
                  (Py.sub last prev)
                  (Py.mul (Py.quot (Py.sub last prev) prev) (Num 100))].
Proof.
  intros Hreq Hc Hz.
  pose proof (snapshot_two_points _ _ now_sp _ _ _ _ Hreq Hc) as Hs.
  unfold show_dollar. rewrite Hs.
  cbn [Py.bind show_snapshot last_close previous_close timestamp
       format_2f minus].
  unfold Py.div. rewrite Hz. reflexivity.
Qed.

(** C3, at the failing input: the provider call raises.  Nothing in
    [get_dollar_data_real_time] catches the exception, and neither does
    the code that calls it: both end by raising it, where the claim
    promises the result [None]. *)
Theorem provider_error_escapes (e : exn) (t t' : datetime) :
  get_dollar_data_real_time (fun _ _ _ => Raise e) t t' = Raise e
  /\ get_dollar_data_real_time (fun _ _ _ => Raise e) t t' <> Ok None
  /\ show_dollar (fun _ _ _ => Raise e) t t' = Raise e.
Proof. repeat split; discriminate. Qed.

(** X5: what does become [None]: when the provider returns a table that
    is empty or has no closing-price column, the fetcher returns [None]
    and the page writes the notice that the quote is not available. *)
Lemma empty_answer_unavailable
      (yf_download : provider) (now now_sp : datetime) df :
  answers yf_download now df ->
  df_empty df = true \/ has_column "Close"%string df = false ->
  get_dollar_data_real_time yf_download now now_sp = Ok None
  /\ show_dollar yf_download now now_sp
     = Ok [Write "Dados do dólar não estão disponíveis no momento."%string].
Proof.
  intros Hreq Hbad.
  assert (get_dollar_data_real_time yf_download now now_sp = Ok None) as Hg.
  { unfold get_dollar_data_real_time. rewrite date_of_start.
    red in Hreq. rewrite Hreq. cbn [Py.bind].
    destruct Hbad as [-> | ->]; [done|]. by rewrite andb_false_r. }
  split; [exact Hg|]. unfold show_dollar. by rewrite Hg.
Qed.

(** C4, amended: for a response with at least two closing prices whose
    previous close is not zero, the page shows
    variation = last_close - previous_close,
    percentage_change = variation / previous_close * 100, and the arrow
    is up exactly when variation > 0. *)
Theorem variation_fields (yf_download : provider) (now now_sp : datetime)
        df older prev last :
  answers yf_download now df ->
  closes df = older ++ [prev; last] ->
  is_zero prev = false ->
  exists direction variation percentage_change,
    get_dollar_data_real_time yf_download now now_sp
    = Ok (Some (Snap (Some last) (Some prev) now_sp))
    /\ show_dollar yf_download now now_sp
       = Ok [Subheader "Cotação Atual do Dólar"%string; Quote last;
             CollectedAt now_sp;
             Variation direction variation percentage_change]
    /\ variation = Py.sub last prev
    /\ percentage_change = Py.mul (Py.quot variation prev) (Num 100)
    /\ (direction = arrow_up <-> Py.gt variation (Num 0) = true)
    /\ (direction = arrow_down <-> Py.gt variation (Num 0) = false).
Proof.
  intros Hreq Hc Hz.
  pose proof (snapshot_two_points _ _ now_sp _ _ _ _ Hreq Hc) as Hs.
  exists (if Py.gt (Py.sub last prev) (Num 0) then arrow_up else arrow_down),
         (Py.sub last prev),
         (Py.mul (Py.quot (Py.sub last prev) prev) (Num 100)).
  split; [exact Hs|]. split.
  - by apply (show_two_points _ _ _ df older).
  - repeat split; destruct (Py.gt (Py.sub last prev) (Num 0));
      try done; intros; by exfalso.
Qed.

Lemma variation_fields_witness :
  exists direction variation percentage_change,
    get_dollar_data_real_time (always two_days) 0%Z 7%Z
    = Ok (Some (Snap (Some (Num 5.10)) (Some (Num 5.00)) 7%Z))
    /\ show_dollar (always two_days) 0%Z 7%Z
       = Ok [Subheader "Cotação Atual do Dólar"%string; Quote (Num 5.10);
             CollectedAt 7%Z;
             Variation direction variation percentage_change]
    /\ variation = Py.sub (Num 5.10) (Num 5.00)
    /\ percentage_change = Py.mul (Py.quot variation (Num 5.00)) (Num 100)
    /\ (direction = arrow_up <-> Py.gt variation (Num 0) = true)
    /\ (direction = arrow_down <-> Py.gt variation (Num 0) = false).
Proof.
  apply (variation_fields (always two_days) 0%Z 7%Z two_days []
                          (Num 5.00) (Num 5.10));
    reflexivity.
Defined.

(** The scenario of the specification: 5.10 after 5.00 is a variation of
    0.10, a change of 2 percent, upwards. *)
Example variation_scenario :
  exists v p,
    show_dollar (always two_days) 0%Z 7%Z
    = Ok [Subheader "Cotação Atual do Dólar"%string; Quote (Num 5.10);
          CollectedAt 7%Z; Variation arrow_up (Num v) (Num p)]
    /\ (v == 0.10)%Q /\ (p == 2)%Q.
Proof. do 2 eexists. split; [reflexivity|]. split; reflexivity. Qed.

(** C4 as stated fails where the previous close is zero: with two
    closing prices 0 and 5.10 the division raises, and the page gets no
    variation and no percentage at all. *)
Lemma variation_zero_previous_raises :
  closes zero_then_quote = [Num 0; Num 5.10]
  /\ show_dollar (always zero_then_quote) 0%Z 7%Z = Raise ZeroDivisionError
  /\ ~ (exists ws, show_dollar (always zero_then_quote) 0%Z 7%Z = Ok ws).
Proof.
  split; [reflexivity|]. split; [reflexivity|].
  intros [ws H]. discriminate H.
Qed.

(** C5: a response with exactly one closing price gives a snapshot whose
    [previous_close] is [None], not zero, and the page then shows no
    variation and no percentage, only the notice that none could be
    computed. *)
Theorem single_point_no_variation
        (yf_download : provider) (now now_sp : datetime) df last :
  answers yf_download now df ->
  closes df = [last] ->
  get_dollar_data_real_time yf_download now now_sp
  = Ok (Some (Snap (Some last) None now_sp))
  /\ show_dollar yf_download now now_sp
     = Ok [Subheader "Cotação Atual do Dólar"%string; Quote last;
           CollectedAt now_sp;
           Write "Não foi possível calcular a variação."%string]
  /\ forall ws, show_dollar yf_download now now_sp = Ok ws ->
                forall d v p, ~ In (Variation d v p) ws.
Proof.
  intros Hreq Hc.
  pose proof (snapshot_one_point _ _ now_sp _ _ Hreq Hc) as Hs.
  assert (show_dollar yf_download now now_sp
          = Ok [Subheader "Cotação Atual do Dólar"%string; Quote last;
                CollectedAt now_sp;
                Write "Não foi possível calcular a variação."%string]) as Hw
      by (unfold show_dollar; rewrite Hs; reflexivity).
  split; [exact Hs|]. split; [exact Hw|].
  intros ws Hws d v p Hin. rewrite Hw in Hws. injection Hws as <-.
  simpl in Hin. intuition discriminate.
Qed.

Lemma single_point_no_variation_witness :
  get_dollar_data_real_time (always one_day) 0%Z 7%Z
  = Ok (Some (Snap (Some (Num 5.10)) None 7%Z))
  /\ show_dollar (always one_day) 0%Z 7%Z
     = Ok [Subheader "Cotação Atual do Dólar"%string; Quote (Num 5.10);
           CollectedAt 7%Z;
           Write "Não foi possível calcular a variação."%string]
  /\ forall ws, show_dollar (always one_day) 0%Z 7%Z = Ok ws ->
                forall d v p, ~ In (Variation d v p) ws.
Proof.
  apply (single_point_no_variation (always one_day) 0%Z 7%Z one_day
                                   (Num 5.10));
    reflexivity.
Defined.

(** C9 as stated fails: with two equal closing prices the variation is
    zero and the page shows the down arrow. *)
Lemma equal_closes_show_down :
  closes flat_days = [Num 5.00; Num 5.00]
  /\ exists v p,
      show_dollar (always flat_days) 0%Z 7%Z
      = Ok [Subheader "Cotação Atual do Dólar"%string; Quote (Num 5.00);
            CollectedAt 7%Z; Variation arrow_down (Num v) (Num p)]
      /\ (v == 0)%Q
      /\ ~ (arrow_down <> arrow_up /\ arrow_down <> arrow_down).
Proof.
  split; [reflexivity|]. do 2 eexists.
  split; [reflexivity|]. split; [reflexivity|]. intros [_ H]. by apply H.
Qed.

(** C9, amended: when the two closing prices are equal and not zero the
    variation is zero and the arrow shown is the down arrow; the page
    knows two directions only, up for a variation above zero and down
    for everything else. *)
Theorem equal_closes_direction_down
        (yf_download : provider) (now now_sp : datetime)
        df older prev last :
  answers yf_download now df ->
  closes df = older ++ [prev; last] ->
  feq last prev ->
  is_zero prev = false ->
  exists variation percentage_change,
    show_dollar yf_download now now_sp
    = Ok [Subheader "Cotação Atual do Dólar"%string; Quote last;
          CollectedAt now_sp;
          Variation arrow_down variation percentage_change]
    /\ feq variation (Num 0).
Proof.
  intros Hreq Hc Heq Hz.
  assert (feq (Py.sub last prev) (Num 0)) as Hv.
  { destruct last as [a|], prev as [b|]; simpl in *; try done.
    rewrite Heq. unfold Qminus. apply Qplus_opp_r. }
  exists (Py.sub last prev),
         (Py.mul (Py.quot (Py.sub last prev) prev) (Num 100)).
  split; [|exact Hv].
  rewrite (show_two_points _ _ now_sp _ _ _ _ Hreq Hc Hz).
  by rewrite (gt_zero_false_of_feq _ Hv).
Qed.

Lemma equal_closes_direction_down_witness :
  exists variation percentage_change,
    show_dollar (always flat_days) 0%Z 7%Z
    = Ok [Subheader "Cotação Atual do Dólar"%string; Quote (Num 5.00);
          CollectedAt 7%Z;
          Variation arrow_down variation percentage_change]
    /\ feq variation (Num 0).
Proof.
  apply (equal_closes_direction_down (always flat_days) 0%Z 7%Z flat_days []
                                     (Num 5.00) (Num 5.00));
    reflexivity.
Defined.

(** C10: a snapshot that is not [None] always carries a [last_close],
    so formatting it for the page succeeds: a table that is not empty and
    has the closing-price column has at least one closing value. *)
Theorem last_close_present
        (yf_download : provider) (now now_sp : datetime) (s : snapshot) :
  get_dollar_data_real_time yf_download now now_sp = Ok (Some s) ->
  exists x, last_close s = Some x /\ format_2f (last_close s) = Ok x.
Proof.
  unfold get_dollar_data_real_time.
  destruct (yf_download _ _ _) as [data|e]; simpl; [|discriminate].
  destruct (negb (df_empty data) && has_column "Close"%string data) eqn:C;
    [|discriminate].
  apply andb_true_iff in C as [Hne Hcol]. apply negb_true_iff in Hne.
  destruct (has_column_getitem _ _ Hcol) as (c & -> & Hlen).
  pose proof (df_empty_false_rows _ Hne) as Hrows. simpl.
  destruct (0 <? length c)%nat eqn:E0; [|apply Nat.ltb_ge in E0; lia].
  destruct (iloc_neg_in_range c 1 ltac:(lia)) as [v ->]. simpl.
  destruct (1 <? length c)%nat; simpl.
  - destruct (iloc_neg c 2); simpl; [|discriminate].
    intros [= <-]. by exists v.
  - intros [= <-]. by exists v.
Qed.

Lemma last_close_present_witness :
  exists x, last_close (Snap (Some (Num 5.10)) None 7%Z) = Some x
            /\ format_2f (last_close (Snap (Some (Num 5.10)) None 7%Z)) = Ok x.
Proof.
  apply (last_close_present (always one_day) 0%Z 7%Z). reflexivity.
Defined.

End SnapshotClaims.

(** ** Headlines *)

Section HeadlineFacts.
Import Headline.

Lemma dom_success_dict n t s :
  dom (success_dict n t s)
  = ({["site_name"%string; "translated_title"%string;
       "translated_subtitle"%string]} : gset string).
Proof.
  unfold success_dict. rewrite !dom_insert_L, dom_empty_L. set_solver.
Qed.

Lemma dom_failure_dict n e :
  dom (failure_dict n e)
  = ({["site_name"%string; "error"%string]} : gset string).
Proof.
  unfold failure_dict. rewrite !dom_insert_L, dom_empty_L. set_solver.
Qed.

Lemma shapes_differ :
  ({["site_name"%string; "translated_title"%string;
     "translated_subtitle"%string]} : gset string)
  <> {["site_name"%string; "error"%string]}.
Proof.
  intros H.
  assert ("error"%string ∈ ({["site_name"%string; "translated_title"%string;
                              "translated_subtitle"%string]} : gset string))
    as Hin by (rewrite H; set_solver).
  rewrite !elem_of_union, !elem_of_singleton in Hin.
  destruct Hin as [[Hin|Hin]|Hin]; discriminate Hin.
Qed.

Lemma success_is_success n t s : is_success (success_dict n t s).
Proof. apply dom_success_dict. Qed.



Lemma failure_not_success n e : ~ is_success (failure_dict n e).
Proof.
  unfold is_success. rewrite dom_failure_dict. intros H. by apply shapes_differ.
Qed.

(** The [try] block either raises or returns a success dictionary. *)
Lemma fetch_headline_try_success w n u ts ss tf d :
  fetch_headline_try w n u ts ss tf = Ok d ->
  exists t s, d = success_dict n t s.
Proof.
  unfold fetch_headline_try.
  destruct (requests_get w u user_agent 10) as [r|]; simpl; [|discriminate].
  destruct (raise_for_status w r); simpl; [|discriminate].
  destruct (BeautifulSoup w (text r)) as [soup|]; simpl; [|discriminate].
  destruct (title_text w soup ts) as [tt|]; simpl; [|discriminate].
  destruct (translate w tf "pt"%string tt) as [t|]; simpl; [|discriminate].
  match goal with
  | |- Py.bind ?m _ = _ -> _ => destruct m as [s|]; simpl; [|discriminate]
  end.
  intros [= <-]. by exists t, s.
Qed.

End HeadlineFacts.

Section HeadlineClaims.
Import Headline Samples.

Lemma fetch_headline_try_fetched w n u ts ss tf soup :
  fetched w u soup ->
  fetch_headline_try w n u ts ss tf
  = Py.bind (title_text w soup ts) (fun title_text =>
    Py.bind (translate w tf "pt"%string title_text) (fun translated_title =>
    Py.bind
      match given ss with
      | Some selector =>
          Py.bind (text_or w soup selector EmptyString) (fun subtitle_text =>
          if truthy_str subtitle_text
          then Py.bind (translate w tf "pt"%string subtitle_text)
                       (fun t => Ok (Some t))
          else Ok None)
      | None => Ok None
      end
      (fun translated_subtitle =>
         Ok (success_dict n translated_title translated_subtitle)))).
Proof.
  intros (r & Hget & Hst & Hsoup). unfold fetch_headline_try.
  rewrite Hget. simpl. rewrite Hst. simpl. rewrite Hsoup. reflexivity.
Qed.


(** X6: whichever stage raises, the request, the status check, the
    parser, the title lookup or the title translation, the call returns
    the failure dictionary with the site name and the text of that
    exception. *)
Lemma fetch_headline_stage_errors w n u ts ss tf e :
  requests_get w u user_agent 10 = Raise e
  \/ (exists r, requests_get w u user_agent 10 = Ok r
                /\ (raise_for_status w r = Raise e
                    \/ (raise_for_status w r = Ok tt
                        /\ BeautifulSoup w (text r) = Raise e)))
  \/ (exists soup, fetched w u soup
                   /\ (title_text w soup ts = Raise e
                       \/ exists t, title_text w soup ts = Ok t
                                    /\ translate w tf "pt"%string t = Raise e)) ->
  fetch_headline w n u ts ss tf = Ok (failure_dict n e).
Proof.
  unfold fetch_headline.
  intros [H|[(r & Hr & [H|[H1 H2]])|(soup & Hf & [H|(t & Ht & H)])]].
  - unfold fetch_headline_try. by rewrite H.
  - unfold fetch_headline_try. rewrite Hr. simpl. by rewrite H.
  - unfold fetch_headline_try. rewrite Hr. simpl. rewrite H1. simpl.
    by rewrite H2.
  - rewrite (fetch_headline_try_fetched _ _ _ _ _ _ _ Hf). by rewrite H.
  - rewrite (fetch_headline_try_fetched _ _ _ _ _ _ _ Hf). rewrite Ht. simpl.
    by rewrite H.
Qed.

(** C7, amended: when no element matches the title selector, the text
    handed to the translator is the fixed placeholder and putting it in
    raises nothing; the title field of the result, when there is one, is
    what the translator returns for the placeholder, and it is the
    placeholder itself when the translator leaves it unchanged; with no
    subtitle to fetch the call is then a success. *)
Theorem missing_title_placeholder
        (w : Web) (site_name url title_selector : string)
        (subtitle_selector : option string) (translate_from : string)
        (soup : Soup) :
  fetched w url soup ->
  select_one w soup title_selector = Ok None ->
  title_text w soup title_selector = Ok title_not_found
  /\ (forall d v,
        fetch_headline w site_name url title_selector subtitle_selector
                       translate_from = Ok d ->
        d !! "translated_title"%string = Some v ->
        exists t, translate w translate_from "pt"%string title_not_found = Ok t
                  /\ v = VStr t)
  /\ (forall t,
        translate w translate_from "pt"%string title_not_found = Ok t ->
        fetch_headline w site_name url title_selector None translate_from
        = Ok (success_dict site_name t None)).
Proof.
  intros Hf Hsel.
  assert (title_text w soup title_selector = Ok title_not_found) as Ht
      by (unfold title_text, text_or; by rewrite Hsel).
  split; [exact Ht|]. split.
  - intros d v. unfold fetch_headline.
    rewrite (fetch_headline_try_fetched _ _ _ _ _ _ _ Hf), Ht. simpl.
    destruct (translate w translate_from "pt"%string title_not_found)
      as [t|e]; simpl.
    + match goal with
      | |- try_except (Py.bind ?m _) _ = _ -> _ => destruct m as [s|e]; simpl
      end.
      * intros [= <-] [= <-]. by exists t.
      * intros [= <-]. discriminate.
    + intros [= <-]. discriminate.
  - intros t Htr. unfold fetch_headline.
    rewrite (fetch_headline_try_fetched _ _ _ _ _ _ _ Hf), Ht. simpl.
    by rewrite Htr.
Qed.

Lemma missing_title_placeholder_witness :
  title_text front_page "<h2> Markets rally </h2>"%string "h1"%string
  = Ok title_not_found
  /\ (forall d v,
        fetch_headline front_page "Second"%string
                       "https://second.example"%string "h1"%string
                       (Some "p"%string) "en"%string = Ok d ->
        d !! "translated_title"%string = Some v ->
        exists t, translate front_page "en"%string "pt"%string
                            title_not_found = Ok t
                  /\ v = VStr t)
  /\ (forall t,
        translate front_page "en"%string "pt"%string title_not_found = Ok t ->
        fetch_headline front_page "Second"%string
                       "https://second.example"%string "h1"%string
                       None "en"%string
        = Ok (success_dict "Second"%string t None)).
Proof.
  apply (missing_title_placeholder front_page "Second"%string
           "https://second.example"%string "h1"%string (Some "p"%string)
           "en"%string "<h2> Markets rally </h2>"%string).
  - eexists. repeat split; reflexivity.
  - reflexivity.
Defined.

(** C7 as stated fails: the title field is the translator's rendering of
    the placeholder, which need not be the placeholder; and when the
    translator raises, the result has no title field at all. *)
Lemma missing_title_is_translated :
  select_one front_page "<h2> Markets rally </h2>"%string "h1"%string = Ok None
  /\ fetch_headline front_page "Second"%string "https://second.example"%string
                    "h1"%string None "en"%string
     = Ok (success_dict "Second"%string "[pt] Título não encontrado"%string
                        None)
  /\ success_dict "Second"%string "[pt] Título não encontrado"%string None
       !! "translated_title"%string
     <> Some (VStr title_not_found)
  /\ fetch_headline no_translator "Second"%string
                    "https://second.example"%string "h1"%string None
                    "en"%string
     = Ok (failure_dict "Second"%string
             (Exn "TooManyRequests"%string
                  "too many requests to the server"%string)).
Proof.
  split; [reflexivity|]. split; [reflexivity|]. split; [|reflexivity].
  unfold success_dict.
  rewrite lookup_insert_ne by discriminate. rewrite lookup_insert_eq.
  discriminate.
Qed.

(** C8, amended: with a subtitle selector given, when no element
    matches it or the matching element has empty text, a call whose page
    was fetched and whose title was extracted and translated returns a
    success whose [translated_subtitle] is [None]: the missing subtitle
    is neither a failure nor replaced by a placeholder, and the result
    is the one the same call gives without a subtitle selector. *)
Theorem missing_subtitle_is_none
        (w : Web) (site_name url title_selector selector : string)
        (translate_from : string) (soup : Soup) (title translated : string) :
  fetched w url soup ->
  title_text w soup title_selector = Ok title ->
  translate w translate_from "pt"%string title = Ok translated ->
  truthy_str selector = true ->
  no_text w soup selector ->
  fetch_headline w site_name url title_selector (Some selector) translate_from
  = Ok (success_dict site_name translated None)
  /\ success_dict site_name translated None !! "translated_subtitle"%string
     = Some VNone
  /\ is_success (success_dict site_name translated None)
  /\ fetch_headline w site_name url title_selector (Some selector)
                    translate_from
     = fetch_headline w site_name url title_selector None translate_from.
Proof.
  intros Hf Ht Htr Hsel Hno.
  assert (text_or w soup selector EmptyString = Ok EmptyString) as Hsub.
  { unfold text_or. destruct Hno as [->|(el & -> & Hel)]; [done|exact Hel]. }
  assert (fetch_headline w site_name url title_selector (Some selector)
                         translate_from
          = Ok (success_dict site_name translated None)) as Hres.
  { unfold fetch_headline.
    rewrite (fetch_headline_try_fetched _ _ _ _ _ _ _ Hf), Ht. simpl.
    rewrite Htr. simpl. rewrite Hsel, Hsub. reflexivity. }
  split; [exact Hres|]. split.
  - unfold success_dict. rewrite !lookup_insert_ne by discriminate.
    by rewrite lookup_insert_eq.
  - split; [apply success_is_success|].
    rewrite Hres. unfold fetch_headline.
    rewrite (fetch_headline_try_fetched _ _ _ _ _ _ _ Hf), Ht. simpl.
    by rewrite Htr.
Qed.

Lemma missing_subtitle_is_none_witness :
  fetch_headline front_page "Third"%string "https://third.example"%string
                 "h2"%string (Some "p"%string) "es"%string
  = Ok (success_dict "Third"%string "[pt] Markets rally"%string None)
  /\ success_dict "Third"%string "[pt] Markets rally"%string None
       !! "translated_subtitle"%string
     = Some VNone
  /\ is_success (success_dict "Third"%string "[pt] Markets rally"%string None)
  /\ fetch_headline front_page "Third"%string "https://third.example"%string
                    "h2"%string (Some "p"%string) "es"%string
     = fetch_headline front_page "Third"%string "https://third.example"%string
                      "h2"%string None "es"%string.
Proof.
  apply (missing_subtitle_is_none front_page "Third"%string
           "https://third.example"%string "h2"%string "p"%string "es"%string
           "<h2> Markets rally </h2>"%string "Markets rally"%string
           "[pt] Markets rally"%string).
  - eexists. repeat split; reflexivity.
  - reflexivity.
  - reflexivity.
  - reflexivity.
  - left. reflexivity.
Defined.

(** C8 as stated fails: a missing subtitle does not make the call a
    success by itself.  Here no element matches the subtitle selector
    and the translator refuses the title, which is translated before the
    subtitle is looked at: the result is the failure dictionary. *)
Lemma missing_subtitle_after_failed_title :
  select_one no_translator "<h2> Markets rally </h2>"%string "p"%string
  = Ok None
  /\ fetch_headline no_translator "Second"%string
                    "https://second.example"%string "h2"%string
                    (Some "p"%string) "en"%string
     = Ok (failure_dict "Second"%string
             (Exn "TooManyRequests"%string
                  "too many requests to the server"%string))
  /\ ~ is_success (failure_dict "Second"%string
                     (Exn "TooManyRequests"%string
                          "too many requests to the server"%string))
  /\ forall translated_title,
       fetch_headline no_translator "Second"%string
                      "https://second.example"%string "h2"%string
                      (Some "p"%string) "en"%string
       <> Ok (success_dict "Second"%string translated_title None).
Proof.
  split; [reflexivity|]. split; [reflexivity|].
  split; [apply failure_not_success|].
  intros t H.
  assert (failure_dict "Second"%string
            (Exn "TooManyRequests"%string
                 "too many requests to the server"%string)
          = success_dict "Second"%string t None) as Heq
      by (change (Ok (failure_dict "Second"%string
                        (Exn "TooManyRequests"%string
                             "too many requests to the server"%string))
                  = Ok (success_dict "Second"%string t None)) in H;
          by injection H).
  apply (failure_not_success "Second"%string
           (Exn "TooManyRequests"%string
                "too many requests to the server"%string)).
  rewrite Heq. apply success_is_success.
Qed.

End HeadlineClaims.

(** ** The thread pool *)

Section PoolFacts.
Import Headline Orchestrator.

Variable webs : nat -> Web.
Variable submitted : list site.

Lemma task_returns w s : exists d, task w s = Ok d.
Proof.
  unfold task, fetch_headline.
  destruct (fetch_headline_try _ _ _ _ _ _); simpl; by eexists.
Qed.

Lemma finish_lookup fs a i :
  finish webs submitted fs a !! i
  = match submitted !! i with
    | Some s => if decide (a = i) then Some (task (webs i) s) else fs !! i
    | None => fs !! i
    end.
Proof.
  unfold finish, futures in *. destruct (decide (a = i)) as [->|Hne].
  - destruct (submitted !! i); [apply lookup_insert_eq|done].
  - destruct (submitted !! a).
    + rewrite lookup_insert_ne by done. by destruct (submitted !! i).
    + by destruct (submitted !! i).
Qed.

(** A future holds the outcome of its own task as soon as the task has
    finished, whatever else finished before or after it. *)
Lemma foldl_finish_lookup schedule fs i :
  foldl (finish webs submitted) fs schedule !! i
  = match submitted !! i with
    | Some s => if decide (i ∈ schedule) then Some (task (webs i) s)
                else fs !! i
    | None => fs !! i
    end.
Proof.
  revert fs. induction schedule as [|a schedule IH]; intros fs; simpl.
  - destruct (submitted !! i); [|done].
    destruct (decide (i ∈ [])) as [H|]; [by apply elem_of_nil in H|done].
  - rewrite IH, finish_lookup. destruct (submitted !! i) as [s|]; [|done].
    destruct (decide (i ∈ schedule)) as [Hin|Hnin].
    + rewrite decide_True; [done|]. apply elem_of_cons; by right.
    + destruct (decide (a = i)) as [->|Hne].
      * rewrite decide_True; [done|]. apply elem_of_cons; by left.
      * rewrite decide_False; [done|].
        intros [->|H]%elem_of_cons; [by apply Hne|by apply Hnin].
Qed.

Lemma run_lookup schedule i s :
  complete schedule (length submitted) ->
  submitted !! i = Some s ->
  run webs submitted schedule !! i = Some (task (webs i) s).
Proof.
  intros Hc Hs. unfold run. rewrite foldl_finish_lookup, Hs.
  rewrite decide_True; [done|].
  red in Hc. rewrite Hc. apply elem_of_seq.
  apply lookup_lt_Some in Hs. lia.
Qed.

(** The iterator hands the futures over by index. *)
Lemma result_iterator_in_order (fs : futures) i n :
  (forall j, (j < n)%nat -> exists d, fs !! (i + j)%nat = Some (Ok d)) ->
  exists out,
    result_iterator fs i n = Some (Ok out)
    /\ length out = n
    /\ forall j, (j < n)%nat ->
                 exists d, out !! j = Some d /\ fs !! (i + j)%nat = Some (Ok d).
Proof.
  revert i. induction n as [|n IH]; intros i Hall; simpl.
  - exists []. repeat split; intros; lia.
  - destruct (Hall 0%nat ltac:(lia)) as [d Hd].
    rewrite Nat.add_0_r in Hd. rewrite Hd.
    destruct (IH (S i)) as (out & -> & Hlen & Hout).
    { intros j Hj. destruct (Hall (S j) ltac:(lia)) as [d' Hd'].
      exists d'. by rewrite <- Hd', Nat.add_succ_r. }
    exists (d :: out). split; [done|]. split; [simpl; lia|].
    intros [|j] Hj.
    + exists d. by rewrite Nat.add_0_r.
    + destruct (Hout j ltac:(lia)) as (d' & H1 & H2).
      exists d'. split; [done|]. by rewrite <- H2, Nat.add_succ_r.
Qed.

(** Under any schedule that lets every task finish, the results come
    out one per site, at the position of the site. *)
Lemma executor_map_in_order schedule :
  complete schedule (length submitted) ->
  exists out,
    executor_map webs submitted schedule = Some (Ok out)
    /\ length out = length submitted
    /\ forall i s, submitted !! i = Some s ->
                   exists d, out !! i = Some d /\ task (webs i) s = Ok d.
Proof.
  intros Hc. unfold executor_map.
  destruct (result_iterator_in_order (run webs submitted schedule) 0
                                     (length submitted))
    as (out & Hout & Hlen & Hpos).
  - intros j Hj. destruct (lookup_lt_is_Some_2 submitted j Hj) as [s Hs].
    destruct (task_returns (webs j) s) as [d Hd].
    exists d. simpl. by rewrite (run_lookup _ _ _ Hc Hs), Hd.
  - exists out. split; [done|]. split; [done|].
    intros i s Hs. pose proof (lookup_lt_Some _ _ _ Hs) as Hi.
    destruct (Hpos i Hi) as (d & Hd & Hrun). simpl in Hrun.
    rewrite (run_lookup _ _ _ Hc Hs) in Hrun.
    exists d. split; [done|]. by injection Hrun.
Qed.

End PoolFacts.

Section PoolClaims.
Import Headline Orchestrator Samples.

Lemma task_site_name w s d :
  task w s = Ok d -> d !! "site_name"%string = Some (VStr (name s)).
Proof.
  unfold task, fetch_headline.
  destruct (fetch_headline_try _ _ _ _ _ _) as [d'|e] eqn:T; simpl.
  - destruct (fetch_headline_try_success _ _ _ _ _ _ _ T) as (t & u & ->).
    by intros [= <-].
  - by intros [= <-].
Qed.

Lemma task_fail_fetch e w s :
  task (fail_fetch e w) s = Ok (failure_dict (name s) e).
Proof. reflexivity. Qed.

Lemma inject_failure_other k e webs i :
  i <> k -> inject_failure k e webs i = webs i.
Proof.
  intros Hne. unfold inject_failure.
  by destruct (Nat.eqb_spec i k).
Qed.

Lemma inject_failure_same k e webs :
  inject_failure k e webs k = fail_fetch e (webs k).
Proof. unfold inject_failure. by rewrite Nat.eqb_refl. Qed.

(** C1: whatever the order in which the tasks finish, the pool returns
    one result per submitted site, the result at position i being the
    one [fetch_headline] gives for site i; and when the request of site
    k is made to fail, under the same or any other order, the result at
    position k becomes that site's failure and the result at every other
    position is what it was. *)
Theorem results_keep_site_order
        (webs : nat -> Web) (submitted : list site) (schedule : list nat) :
  complete schedule (length submitted) ->
  exists out,
    executor_map webs submitted schedule = Some (Ok out)
    /\ length out = length submitted
    /\ (forall i s, submitted !! i = Some s ->
          exists d, out !! i = Some d /\ task (webs i) s = Ok d
                    /\ d !! "site_name"%string = Some (VStr (name s)))
    /\ forall k e schedule',
        complete schedule' (length submitted) ->
        exists out',
          executor_map (inject_failure k e webs) submitted schedule'
          = Some (Ok out')
          /\ length out' = length submitted
          /\ (forall i, i <> k -> out' !! i = out !! i)
          /\ (forall s, submitted !! k = Some s ->
                out' !! k = Some (failure_dict (name s) e)).
Proof.
  intros Hc.
  destruct (executor_map_in_order webs submitted schedule Hc)
    as (out & Hout & Hlen & Hpos).
  exists out. split; [done|]. split; [done|]. split.
  - intros i s Hs. destruct (Hpos i s Hs) as (d & Hd & Ht).
    exists d. split; [done|]. split; [done|]. by eapply task_site_name.
  - intros k e schedule' Hc'.
    destruct (executor_map_in_order (inject_failure k e webs) submitted
                                    schedule' Hc')
      as (out' & Hout' & Hlen' & Hpos').
    exists out'. split; [done|]. split; [done|]. split.
    + intros i Hne. destruct (submitted !! i) as [s|] eqn:Hs.
      * destruct (Hpos i s Hs) as (d & -> & Ht).
        destruct (Hpos' i s Hs) as (d' & -> & Ht').
        rewrite inject_failure_other in Ht' by done. congruence.
      * apply lookup_ge_None in Hs.
        rewrite (lookup_ge_None_2 out') by lia.
        by rewrite (lookup_ge_None_2 out) by lia.
    + intros s Hs. destruct (Hpos' k s Hs) as (d' & -> & Ht').
      rewrite inject_failure_same, task_fail_fetch in Ht'. congruence.
Qed.

Lemma results_keep_site_order_witness :
  exists out,
    executor_map (fun _ => front_page) three_sites [2; 0; 1]%nat = Some (Ok out)
    /\ length out = 3%nat
    /\ exists out',
        executor_map (inject_failure 1 timeout_error (fun _ => front_page))
                     three_sites [1; 2; 0]%nat = Some (Ok out')
        /\ out' !! 0%nat = out !! 0%nat
        /\ out' !! 2%nat = out !! 2%nat
        /\ out' !! 1%nat = Some (failure_dict "Second"%string timeout_error).
Proof.
  destruct (results_keep_site_order (fun _ => front_page) three_sites
                                    [2; 0; 1]%nat)
    as (out & Hout & Hlen & _ & Hinj).
  - eapply perm_trans; [apply perm_swap|]. apply perm_skip, perm_swap.
  - exists out. split; [exact Hout|]. split; [exact Hlen|].
    destruct (Hinj 1%nat timeout_error [1; 2; 0]%nat)
      as (out' & Hout' & _ & Hother & Hk).
    + eapply perm_trans; [apply perm_skip, perm_swap|]. apply perm_swap.
    + exists out'. split; [exact Hout'|].
      split; [apply Hother; discriminate|].
      split; [apply Hother; discriminate|].
      apply (Hk (Site "Second"%string "https://second.example"%string
                      "h1"%string (Some "p"%string) None)).
      reflexivity.
Defined.

End PoolClaims.

(** ** Series table *)

Section SeriesFacts.
Import Snapshot Series.

Variable yf_download : provider.
Variables start_date end_date : date.

Local Abbreviation kept :=
  (List.filter (has_data yf_download start_date end_date)).

(** The loop keeps, in request order, the tickers that have data. *)
Lemma download_loop_keeps tickers data columns :
  well_answered yf_download start_date end_date tickers ->
  download_loop yf_download tickers start_date end_date data columns
  = Ok (data ++ map (close_of yf_download start_date end_date) (kept tickers),
        columns ++ kept tickers).
Proof.
  intros Hw. revert data columns.
  induction Hw as [|ticker rest (df & Hdf & Hclose) _ IH]; intros data columns.
  - simpl. by rewrite !app_nil_r.
  - assert (has_data yf_download start_date end_date ticker
            = negb (df_empty df)) as Hd by (unfold has_data; by rewrite Hdf).
    cbn [download_loop List.filter]. rewrite Hd, Hdf. cbn [Py.bind].
    destruct (df_empty df) eqn:E; cbn [negb].
    + apply IH.
    + destruct (has_column_getitem _ _ (Hclose eq_refl)) as (s & Hs & _).
      rewrite Hs. cbn [Py.bind map]. rewrite IH.
      unfold close_of at 2. rewrite Hdf, Hs.
      by rewrite <- !app_assoc.
Qed.

(** X11: when the provider answers every ticker, the downloaded table
    has one column per ticker that has data, labelled with the ticker, in
    request order; tickers without data leave no column. *)
Lemma download_columns tickers :
  well_answered yf_download start_date end_date tickers ->
  exists df,
    download_currency_data yf_download tickers start_date end_date = Ok df
    /\ df_columns df = kept tickers.
Proof.
  intros Hw. unfold download_currency_data.
  rewrite (download_loop_keeps _ [] [] Hw). simpl.
  destruct (kept tickers) as [|k ks]; simpl; by eexists.
Qed.

Lemma selected_labels_length tickers labels :
  selected_labels tickers = Ok labels -> length labels = length tickers.
Proof.
  revert labels. induction tickers as [|t ts IH]; intros labels; simpl.
  - by intros [= <-].
  - destruct (label_of t); simpl; [|discriminate].
    destruct (selected_labels ts) as [ls|]; simpl; [|discriminate].
    intros [= <-]. simpl. by rewrite (IH ls).
Qed.

Lemma kept_has_rows tickers ticker :
  well_answered yf_download start_date end_date tickers ->
  In ticker (kept tickers) ->
  exists r rs, close_of yf_download start_date end_date ticker = r :: rs.
Proof.
  intros Hw [Hin Hdata]%filter_In.
  unfold well_answered in Hw. rewrite List.Forall_forall in Hw.
  destruct (Hw _ Hin) as (df & Hdf & Hclose).
  unfold has_data in Hdata. rewrite Hdf in Hdata.
  apply negb_true_iff in Hdata.
  destruct (has_column_getitem _ _ (Hclose Hdata)) as (s & Hs & Hlen).
  pose proof (df_empty_false_rows _ Hdata) as Hrows.
  unfold close_of. rewrite Hdf, Hs.
  destruct s as [|r rs]; [simpl in Hlen; lia|by exists r, rs].
Qed.

(** X12: whenever a requested ticker is dropped while another one is
    kept, relabelling raises and the page shows the length-mismatch
    error line instead of a chart. *)
Lemma dropped_ticker_shows_error tickers labels :
  well_answered yf_download start_date end_date tickers ->
  length labels = length tickers ->
  (0 < length (kept tickers) < length tickers)%nat ->
  display_currency_data yf_download tickers labels start_date end_date
  = Ok [Write ("Erro ao baixar os dados: "
               ++ exc_str (length_mismatch (length (kept tickers))
                                           (length tickers)))%string].
Proof.
  intros Hw Hlab [Hpos Hlt].
  pose proof (fun t => kept_has_rows tickers t Hw) as Hrows.
  unfold display_currency_data.
  destruct tickers as [|t0 ts] eqn:Ht; [simpl in Hlt; lia|]. rewrite <- Ht in *.
  unfold display_try, relabelled, download_currency_data.
  rewrite (download_loop_keeps _ [] [] Hw). simpl.
  destruct (kept tickers) as [|k ks] eqn:Hk; [simpl in Hpos; lia|].
  simpl map. cbn [Py.bind fst snd].
  destruct (Hrows k (or_introl eq_refl)) as (r & rs & Hr).
  assert (df_empty (concat_columns
                      (close_of yf_download start_date end_date k
                       :: map (close_of yf_download start_date end_date) ks)
                      (k :: ks)) = false) as Hne.
  { unfold df_empty, concat_columns. cbn [df_columns df_rows].
    cbn [map s_index]. rewrite Hr. unfold union_indexes.
    destruct (forallb _ _); [done|].
    simpl. destruct (decide_rel _ _ _); [|done].
    match goal with |- context [remove_dups ?l] => destruct (remove_dups l) eqn:E end;
      [|done].
    exfalso.
    match type of E with remove_dups ?l = [] =>
      assert (fst r ∈ remove_dups l) as Hin end; [|rewrite E in Hin; by apply elem_of_nil in Hin].
    apply elem_of_remove_dups. done. }
  rewrite Hne. unfold set_columns, width. cbn [df_columns concat_columns].
  rewrite Hlab.
  destruct (Nat.eqb_spec (length (k :: ks)) (length tickers)) as [Heq|_];
    [lia|].
  reflexivity.
Qed.

End SeriesFacts.

Section SeriesClaims.
Import Snapshot Series Samples.

(** Nothing dropped: the table is relabelled with the labels of the
    requested tickers, in request order. *)
Example both_present_relabelled :
  relabelled (always two_days) ["USDBRL=X"; "USDARS=X"]%string
             ["Real (BRL)"; "Peso Argentino (ARS)"]%string 19000%Z 19724%Z
  = Ok (Some (Frame ["Real (BRL)"; "Peso Argentino (ARS)"]%string
                    [(19723%Z, [Num 5.00; Num 5.00]);
                     (19724%Z, [Num 5.10; Num 5.10])])).
Proof. reflexivity. Qed.

(** C2, at the failing input: the real has quotes, the peso comes back
    empty.  [download_currency_data] drops the peso and returns one
    column aligned to the dates of the real, but the page then assigns
    the labels of both requested tickers to that one column: pandas
    raises, and the page shows an error line where the claim promises a
    table with the single column of the real. *)
Theorem dropped_symbol_breaks_relabel :
  download_currency_data brl_only ["USDBRL=X"; "USDARS=X"]%string
                         19000%Z 19724%Z
  = Ok (Frame ["USDBRL=X"%string]
              [(19723%Z, [Num 5.00]); (19724%Z, [Num 5.10])])
  /\ selected_labels ["USDBRL=X"; "USDARS=X"]%string
     = Ok ["Real (BRL)"; "Peso Argentino (ARS)"]%string
  /\ relabelled brl_only ["USDBRL=X"; "USDARS=X"]%string
                ["Real (BRL)"; "Peso Argentino (ARS)"]%string 19000%Z 19724%Z
     = Raise (length_mismatch 1 2)
  /\ series_section brl_only ["USDBRL=X"; "USDARS=X"]%string 19000%Z 19724%Z
     = Ok [Write "Erro ao baixar os dados: Length mismatch: Expected axis has 1 elements, new values have 2 elements"%string].
Proof. repeat split; reflexivity. Qed.

End SeriesClaims.

(** * Further properties of the script *)

(** ** Rate snapshot *)

Section SnapshotMore.
Import Snapshot Samples.

(** X1: the fetcher asks the provider one question only, the quotes of
    USDBRL=X from five days before today up to today; two providers
    that agree on that question give the same snapshot. *)
Theorem snapshot_request_window
        (yf_download yf_download' : provider) (now now_sp : datetime) :
  yf_download "USDBRL=X"%string (date_of now - 5)%Z (date_of now)
  = yf_download' "USDBRL=X"%string (date_of now - 5)%Z (date_of now) ->
  get_dollar_data_real_time yf_download now now_sp
  = get_dollar_data_real_time yf_download' now now_sp.
Proof.
  intros H. unfold get_dollar_data_real_time.
  rewrite date_of_start. by rewrite H.
Qed.

Lemma snapshot_request_window_witness :
  get_dollar_data_real_time (always two_days) 1704067200%Z 7%Z
  = get_dollar_data_real_time brl_only 1704067200%Z 7%Z.
Proof.
  apply (snapshot_request_window (always two_days) brl_only). reflexivity.
Defined.

(** X2: of the rows the provider returns only the last two closing
    prices reach the page; responses that end in the same two prices
    give the same snapshot and the same page. *)
Theorem older_closes_ignored
        (yf_download yf_download' : provider) (now now' now_sp : datetime)
        df df' older older' prev last :
  answers yf_download now df ->
  answers yf_download' now' df' ->
  closes df = older ++ [prev; last] ->
  closes df' = older' ++ [prev; last] ->
  get_dollar_data_real_time yf_download now now_sp
  = get_dollar_data_real_time yf_download' now' now_sp
  /\ show_dollar yf_download now now_sp = show_dollar yf_download' now' now_sp.
Proof.
  intros Ha Ha' Hc Hc'.
  pose proof (snapshot_two_points _ _ now_sp _ _ _ _ Ha Hc) as Hs.
  pose proof (snapshot_two_points _ _ now_sp _ _ _ _ Ha' Hc') as Hs'.
  split; [congruence|]. unfold show_dollar. by rewrite Hs, Hs'.
Qed.

(** X3: for two numeric closing prices with a previous close other than
    zero, the arrow is up when the last close is above the previous one
    and down when it is equal or below; the variation is their
    difference and the percentage is that difference over the previous
    close, times 100. *)
Theorem direction_compares_closes
        (yf_download : provider) (now now_sp : datetime) df older
        (p l : Q) :
  answers yf_download now df ->
  closes df = older ++ [Num p; Num l] ->
  ~ (p == 0)%Q ->
  exists direction v pc,
    show_dollar yf_download now now_sp
    = Ok [Subheader "Cotação Atual do Dólar"%string; Quote (Num l);
          CollectedAt now_sp; Variation direction (Num v) (Num pc)]
    /\ (v == l - p)%Q
    /\ (pc == (l - p) / p * 100)%Q
    /\ ((p < l)%Q -> direction = arrow_up)
    /\ ((l <= p)%Q -> direction = arrow_down).
Proof.
  intros Ha Hc Hp.
  assert (is_zero (Num p) = false) as Hz.
  { simpl. destruct (Qeq_bool p 0) eqn:E; [|done].
    by apply Qeq_bool_iff in E. }
  exists (if Py.gt (Py.sub (Num l) (Num p)) (Num 0)
          then arrow_up else arrow_down), (l - p)%Q, ((l - p) / p * 100)%Q.
  split; [by rewrite (show_two_points _ _ now_sp _ _ _ _ Ha Hc Hz)|].
  split; [reflexivity|]. split; [reflexivity|].
  simpl. destruct (Qle_bool (l - p) 0) eqn:E; simpl.
  - apply Qle_bool_iff in E. split; [|done].
    intros Hlt. exfalso. apply (Qlt_not_le _ _ Hlt).
    apply (Qplus_le_l _ _ (- p)). by rewrite Qplus_opp_r.
  - split; [done|]. intros Hle. exfalso.
    assert (Qle_bool (l - p) 0 = true) as E'; [|congruence].
    apply Qle_bool_iff. apply (Qplus_le_l _ _ (- p)) in Hle.
    by rewrite Qplus_opp_r in Hle.
Qed.

Lemma direction_compares_closes_witness :
  exists direction v pc,
    show_dollar (always two_days) 0%Z 7%Z
    = Ok [Subheader "Cotação Atual do Dólar"%string; Quote (Num 5.10);
          CollectedAt 7%Z; Variation direction (Num v) (Num pc)]
    /\ (v == 5.10 - 5.00)%Q
    /\ (pc == (5.10 - 5.00) / 5.00 * 100)%Q
    /\ ((5.00 < 5.10)%Q -> direction = arrow_up)
    /\ ((5.10 <= 5.00)%Q -> direction = arrow_down).
Proof.
  apply (direction_compares_closes (always two_days) 0%Z 7%Z two_days []
                                   5.00%Q 5.10%Q).
  - reflexivity.
  - reflexivity.
  - discriminate.
Defined.

(** X4: when one of the two closing prices is a missing quote (NaN) and
    the previous close is not zero, the page still shows a variation
    line: variation and percentage are NaN and the arrow is down. *)
Theorem missing_quote_shows_down
        (yf_download : provider) (now now_sp : datetime) df older prev last :
  answers yf_download now df ->
  closes df = older ++ [prev; last] ->
  is_zero prev = false ->
  prev = NaN \/ last = NaN ->
  show_dollar yf_download now now_sp
  = Ok [Subheader "Cotação Atual do Dólar"%string; Quote last;
        CollectedAt now_sp; Variation arrow_down NaN NaN].
Proof.
  intros Ha Hc Hz Hnan.
  rewrite (show_two_points _ _ now_sp _ _ _ _ Ha Hc Hz).
  destruct Hnan as [-> | ->]; [by destruct last|by destruct prev].
Qed.

Lemma older_closes_ignored_witness :
  get_dollar_data_real_time (always two_days) 0%Z 7%Z
  = get_dollar_data_real_time (always three_days) 86400%Z 7%Z
  /\ show_dollar (always two_days) 0%Z 7%Z
     = show_dollar (always three_days) 86400%Z 7%Z.
Proof.
  apply (older_closes_ignored (always two_days) (always three_days)
                              0%Z 86400%Z 7%Z two_days three_days
                              [] [Num 4.95] (Num 5.00) (Num 5.10));
    reflexivity.
Defined.

Lemma missing_quote_shows_down_witness :
  show_dollar (always gap_day) 0%Z 7%Z
  = Ok [Subheader "Cotação Atual do Dólar"%string; Quote (Num 5.10);
        CollectedAt 7%Z; Variation arrow_down NaN NaN].
Proof.
  apply (missing_quote_shows_down (always gap_day) 0%Z 7%Z gap_day []
                                  NaN (Num 5.10)).
  - reflexivity.
  - reflexivity.
  - reflexivity.
  - by left.
Defined.

Lemma empty_answer_unavailable_witness :
  get_dollar_data_real_time (always (quotes [])) 0%Z 7%Z = Ok None
  /\ show_dollar (always (quotes [])) 0%Z 7%Z
     = Ok [Write "Dados do dólar não estão disponíveis no momento."%string].
Proof.
  apply (empty_answer_unavailable (always (quotes [])) 0%Z 7%Z (quotes [])).
  - reflexivity.
  - by left.
Defined.

End SnapshotMore.

(** ** Headlines *)

Section HeadlineMore.
Import Headline Samples.

Lemma fetch_headline_stage_errors_witness :
  fetch_headline unavailable_site "First"%string
                 "https://first.example"%string "h2"%string None "en"%string
  = Ok (failure_dict "First"%string
          (Exn "HTTPError"%string
               "503 Server Error: Service Unavailable"%string)).
Proof.
  apply (fetch_headline_stage_errors unavailable_site).
  right; left. exists (Resp 503 "Service Unavailable"%string).
  split; [reflexivity|]. by left.
Defined.

(** X7: a page with a headline and a summary, both translated, gives a
    success that carries both translations. *)
Theorem subtitle_translated
        (w : Web) (site_name url title_selector selector : string)
        (translate_from : string) (soup : Soup) (element : Tag)
        (title translated subtitle translated_subtitle : string) :
  fetched w url soup ->
  title_text w soup title_selector = Ok title ->
  translate w translate_from "pt"%string title = Ok translated ->
  truthy_str selector = true ->
  select_one w soup selector = Ok (Some element) ->
  get_text w element = Ok subtitle ->
  truthy_str subtitle = true ->
  translate w translate_from "pt"%string subtitle = Ok translated_subtitle ->
  fetch_headline w site_name url title_selector (Some selector) translate_from
  = Ok (success_dict site_name translated (Some translated_subtitle)).
Proof.
  intros Hf Ht Htr Hsel Hel Htxt Hsub Hstr. unfold fetch_headline.
  rewrite (fetch_headline_try_fetched _ _ _ _ _ _ _ Hf), Ht.
  cbn [Py.bind]. rewrite Htr. cbn [Py.bind given]. rewrite Hsel.
  unfold text_or. rewrite Hel. cbn [Py.bind]. rewrite Htxt.
  cbn [Py.bind]. rewrite Hsub, Hstr. reflexivity.
Qed.

Lemma subtitle_translated_witness :
  fetch_headline with_summary "Second"%string "https://second.example"%string
                 "h2"%string (Some "p"%string) "en"%string
  = Ok (success_dict "Second"%string "[pt] Markets rally"%string
                     (Some "[pt] Stocks rose"%string)).
Proof.
  apply (subtitle_translated with_summary "Second"%string
           "https://second.example"%string "h2"%string "p"%string "en"%string
           "<h2> Markets rally </h2>"%string "<p>Stocks rose</p>"%string
           "Markets rally"%string "[pt] Markets rally"%string
           "Stocks rose"%string "[pt] Stocks rose"%string);
    try reflexivity.
  eexists. repeat split; reflexivity.
Defined.

(** X8: an exception while the subtitle is looked up or translated turns
    the whole result into a failure, although the title had already
    been translated: the result carries the text of that exception and
    no title. *)
Theorem subtitle_error_fails_site
        (w : Web) (site_name url title_selector selector : string)
        (translate_from : string) (soup : Soup)
        (title translated : string) (e : exn) :
  fetched w url soup ->
  title_text w soup title_selector = Ok title ->
  translate w translate_from "pt"%string title = Ok translated ->
  truthy_str selector = true ->
  text_or w soup selector EmptyString = Raise e
  \/ (exists subtitle,
        text_or w soup selector EmptyString = Ok subtitle
        /\ truthy_str subtitle = true
        /\ translate w translate_from "pt"%string subtitle = Raise e) ->
  fetch_headline w site_name url title_selector (Some selector) translate_from
  = Ok (failure_dict site_name e)
  /\ failure_dict site_name e !! "translated_title"%string = None.
Proof.
  intros Hf Ht Htr Hsel Herr. split.
  - unfold fetch_headline.
    rewrite (fetch_headline_try_fetched _ _ _ _ _ _ _ Hf), Ht.
    cbn [Py.bind]. rewrite Htr. cbn [Py.bind given]. rewrite Hsel.
    destruct Herr as [-> | (subtitle & -> & Hsub & Hstr)]; [done|].
    cbn [Py.bind]. by rewrite Hsub, Hstr.
  - unfold failure_dict. rewrite !lookup_insert_ne by discriminate.
    apply lookup_empty.
Qed.

Lemma subtitle_error_fails_site_witness :
  fetch_headline summary_refused "Second"%string
                 "https://second.example"%string "h2"%string
                 (Some "p"%string) "en"%string
  = Ok (failure_dict "Second"%string
          (Exn "TooManyRequests"%string
               "too many requests to the server"%string))
  /\ failure_dict "Second"%string
       (Exn "TooManyRequests"%string "too many requests to the server"%string)
       !! "translated_title"%string = None.
Proof.
  apply (subtitle_error_fails_site summary_refused "Second"%string
           "https://second.example"%string "h2"%string "p"%string "en"%string
           "<h2> Markets rally </h2>"%string
           "Markets rally"%string "[pt] Markets rally"%string).
  - eexists. repeat split; reflexivity.
  - reflexivity.
  - reflexivity.
  - reflexivity.
  - right. exists "Stocks rose"%string. repeat split; reflexivity.
Defined.

End HeadlineMore.

(** ** The results on the page *)

Section ResultsMore.
Import Headline Orchestrator Samples.

(** The lines of a success: heading, title, the subtitle when it is a
    non-empty string, and a blank line. *)
Lemma show_result_success n t s :
  show_result (success_dict n t s)
  = Ok ([Heading (VStr n); TitleLine (VStr t)]
          ++ match s with
             | Some x => if truthy_str x then [SubtitleLine (VStr x)] else []
             | None => []
             end
          ++ [Blank]).
Proof. by destruct s. Qed.

Lemma show_result_failure n e :
  show_result (failure_dict n e) = Ok [ErrorLine (VStr n) (VStr (exc_str e))].
Proof. reflexivity. Qed.

(** X9: the page can always print what [fetch_headline] returns: no key
    it reads is missing.  A failure is printed as one error line with
    the site name and the text of the exception; a success as a heading
    with the site name and the title, followed by the subtitle only when
    it is a non-empty string. *)
Theorem show_result_of_fetch
        (w : Web) (site_name url title_selector : string)
        (subtitle_selector : option string) (translate_from : string) :
  exists d block,
    fetch_headline w site_name url title_selector subtitle_selector
                   translate_from = Ok d
    /\ show_result d = Ok block
    /\ ((exists e,
           fetch_headline_try w site_name url title_selector
                              subtitle_selector translate_from = Raise e
           /\ block = [ErrorLine (VStr site_name) (VStr (exc_str e))])
        \/ (exists t s,
              d = success_dict site_name t s
              /\ block
                 = [Heading (VStr site_name); TitleLine (VStr t)]
                     ++ match s with
                        | Some x =>
                            if truthy_str x then [SubtitleLine (VStr x)]
                            else []
                        | None => []
                        end
                     ++ [Blank])).
Proof.
  unfold fetch_headline.
  destruct (fetch_headline_try w site_name url title_selector
                               subtitle_selector translate_from)
    as [d|e] eqn:T; cbn [try_except].
  - destruct (fetch_headline_try_success _ _ _ _ _ _ _ T) as (t & s & ->).
    eexists _, _. split; [reflexivity|].
    split; [apply show_result_success|]. right. by exists t, s.
  - eexists _, _. split; [reflexivity|].
    split; [apply show_result_failure|]. left. by exists e.
Qed.

(** Every block of a fetched result opens with a line naming the site. *)
Lemma show_result_task w s d :
  task w s = Ok d ->
  exists first rest,
    show_result d = Ok (first :: rest)
    /\ (first = Heading (VStr (name s))
        \/ exists err, first = ErrorLine (VStr (name s)) err).
Proof.
  unfold task, fetch_headline.
  destruct (fetch_headline_try _ _ _ _ _ _) as [d'|e] eqn:T; cbn [try_except].
  - destruct (fetch_headline_try_success _ _ _ _ _ _ _ T) as (t & u & ->).
    intros [= <-]. rewrite show_result_success.
    eexists _, _. split; [reflexivity|]. by left.
  - intros [= <-]. rewrite show_result_failure.
    eexists _, _. split; [reflexivity|]. right. by eexists.
Qed.

Lemma show_results_blocks (results : list (gmap string pyval)) :
  (forall d, d ∈ results -> exists b, show_result d = Ok b) ->
  exists blocks,
    show_results results = Ok (concat blocks)
    /\ length blocks = length results
    /\ forall i d, results !! i = Some d ->
                   exists b, blocks !! i = Some b /\ show_result d = Ok b.
Proof.
  induction results as [|r rest IH]; intros Hall.
  - exists []. repeat split. intros i d Hd. by rewrite lookup_nil in Hd.
  - destruct (Hall r) as [b Hb]; [apply elem_of_cons; by left|].
    destruct IH as (blocks & Hs & Hlen & Hpos).
    { intros d Hd. apply Hall, elem_of_cons. by right. }
    exists (b :: blocks). cbn [show_results]. rewrite Hb. cbn [Py.bind].
    rewrite Hs. split; [reflexivity|]. split; [simpl; lia|].
    intros [|i] d Hd; simpl in Hd.
    + injection Hd as <-. by exists b.
    + by apply Hpos.
Qed.

(** X10: whatever the order in which the tasks finish, the headline
    section is printed without an exception, as one block of lines per
    site in the order of the site list; the block at position i prints
    the result of site i and opens with a line naming that site. *)
Theorem headlines_section_in_site_order
        (webs : nat -> Web) (submitted : list site) (schedule : list nat) :
  complete schedule (length submitted) ->
  exists blocks,
    headlines_section webs submitted schedule = Some (Ok (concat blocks))
    /\ length blocks = length submitted
    /\ forall i s, submitted !! i = Some s ->
         exists d first rest,
           task (webs i) s = Ok d
           /\ show_result d = Ok (first :: rest)
           /\ blocks !! i = Some (first :: rest)
           /\ (first = Heading (VStr (name s))
               \/ exists err, first = ErrorLine (VStr (name s)) err).
Proof.
  intros Hc. unfold headlines_section.
  destruct (executor_map_in_order webs submitted schedule Hc)
    as (out & -> & Hlen & Hpos).
  assert (forall d, d ∈ out -> exists b, show_result d = Ok b) as Hall.
  { intros d [i Hi]%list_elem_of_lookup.
    destruct (lookup_lt_is_Some_2 submitted i) as [s Hs];
      [apply lookup_lt_Some in Hi; lia|].
    destruct (Hpos i s Hs) as (d' & Hd' & Ht).
    assert (d' = d) as -> by congruence.
    destruct (show_result_task _ _ _ Ht) as (f & r & Hf & _). by eexists. }
  destruct (show_results_blocks out Hall) as (blocks & Hs & Hbl & Hb).
  exists blocks. split; [by rewrite Hs|]. split; [lia|].
  intros i s Hsub. destruct (Hpos i s Hsub) as (d & Hd & Ht).
  destruct (show_result_task _ _ _ Ht) as (f & r & Hf & Hname).
  destruct (Hb i d Hd) as (b & Hbi & Hshow).
  exists d, f, r. split; [done|]. split; [done|]. split; [congruence|done].
Qed.

Lemma headlines_section_in_site_order_witness :
  exists blocks,
    headlines_section (inject_failure 1 timeout_error (fun _ => front_page))
                      three_sites [2; 0; 1]%nat
    = Some (Ok (concat blocks))
    /\ length blocks = 3%nat.
Proof.
  destruct (headlines_section_in_site_order
              (inject_failure 1 timeout_error (fun _ => front_page))
              three_sites [2; 0; 1]%nat)
    as (blocks & Hs & Hlen & _).
  - eapply perm_trans; [apply perm_swap|]. apply perm_skip, perm_swap.
  - exists blocks. split; [exact Hs|exact Hlen].
Defined.

End ResultsMore.

(** ** Series table and chart *)

Section SeriesMore.
Import Snapshot Series Samples.

Lemma download_loop_app (yf_download : provider) (start_date end_date : date)
      pre rest data columns :
  well_answered yf_download start_date end_date pre ->
  download_loop yf_download (pre ++ rest) start_date end_date data columns
  = download_loop yf_download rest start_date end_date
      (data ++ map (close_of yf_download start_date end_date)
                   (List.filter (has_data yf_download start_date end_date) pre))
      (columns ++ List.filter (has_data yf_download start_date end_date) pre).
Proof.
  intros Hw. revert data columns.
  induction Hw as [|ticker pre' (df & Hdf & Hclose) _ IH]; intros data columns.
  - simpl. by rewrite !app_nil_r.
  - assert (has_data yf_download start_date end_date ticker
            = negb (df_empty df)) as Hd by (unfold has_data; by rewrite Hdf).
    cbn [app download_loop List.filter]. rewrite Hd, Hdf. cbn [Py.bind].
    destruct (df_empty df) eqn:E; cbn [negb].
    + apply IH.
    + destruct (has_column_getitem _ _ (Hclose eq_refl)) as (s & Hs & _).
      rewrite Hs. cbn [Py.bind map]. rewrite IH.
      unfold close_of at 2. rewrite Hdf, Hs.
      by rewrite <- !app_assoc.
Qed.

Lemma concat_columns_not_empty (r : date * pyfloat) rs data k ks :
  df_empty (concat_columns ((r :: rs) :: data) (k :: ks)) = false.
Proof.
  unfold df_empty, concat_columns. cbn [df_columns df_rows map s_index].
  unfold union_indexes. destruct (forallb _ _); [done|].
  match goal with
  | |- context [remove_dups ?l] =>
      assert (fst r ∈ remove_dups l) as Hin;
      [apply elem_of_remove_dups; simpl; apply elem_of_cons; by left
      |destruct (remove_dups l); [by apply elem_of_nil in Hin|done]]
  end.
Qed.

Lemma download_columns_witness :
  exists df,
    download_currency_data brl_only ["USDBRL=X"; "USDARS=X"]%string
                           19000%Z 19724%Z = Ok df
    /\ df_columns df
       = List.filter (has_data brl_only 19000%Z 19724%Z)
                     ["USDBRL=X"; "USDARS=X"]%string.
Proof.
  apply (download_columns brl_only 19000%Z 19724%Z).
  repeat constructor; eexists; (split; [reflexivity|]); intros; try reflexivity;
    discriminate.
Defined.

Lemma dropped_ticker_shows_error_witness :
  display_currency_data brl_only ["USDBRL=X"; "USDARS=X"; "USDMXN=X"]%string
                        ["Real (BRL)"; "Peso Argentino (ARS)";
                         "Peso Mexicano (MXN)"]%string 19000%Z 19724%Z
  = Ok [Write "Erro ao baixar os dados: Length mismatch: Expected axis has 1 elements, new values have 3 elements"%string].
Proof.
  apply (dropped_ticker_shows_error brl_only 19000%Z 19724%Z
           ["USDBRL=X"; "USDARS=X"; "USDMXN=X"]%string).
  - repeat constructor; eexists; (split; [reflexivity|]); intros;
      try reflexivity; discriminate.
  - reflexivity.
  - simpl. lia.
Defined.

(** X13: when the provider has no quotes for any of the selected
    tickers, [download_currency_data] returns the empty table and the
    page writes the no-data notice: no error, no chart. *)
Theorem all_empty_shows_no_data
        (yf_download : provider) (start_date end_date : date)
        (tickers labels : list string) :
  tickers <> [] ->
  well_answered yf_download start_date end_date tickers ->
  List.filter (has_data yf_download start_date end_date) tickers = [] ->
  download_currency_data yf_download tickers start_date end_date
  = Ok empty_frame
  /\ display_currency_data yf_download tickers labels start_date end_date
     = Ok [Write
             "Nenhum dado disponível para o intervalo selecionado."%string].
Proof.
  intros Hne Hw Hnone.
  assert (download_currency_data yf_download tickers start_date end_date
          = Ok empty_frame) as Hd.
  { unfold download_currency_data.
    rewrite (download_loop_keeps _ _ _ _ [] [] Hw), Hnone. reflexivity. }
  split; [exact Hd|].
  unfold display_currency_data. destruct tickers as [|t ts]; [done|].
  unfold display_try, relabelled. rewrite Hd. reflexivity.
Qed.

Lemma all_empty_shows_no_data_witness :
  download_currency_data brl_only ["USDARS=X"; "USDMXN=X"]%string
                         19000%Z 19724%Z
  = Ok empty_frame
  /\ display_currency_data brl_only ["USDARS=X"; "USDMXN=X"]%string
                           ["Peso Argentino (ARS)";
                            "Peso Mexicano (MXN)"]%string 19000%Z 19724%Z
     = Ok [Write
             "Nenhum dado disponível para o intervalo selecionado."%string].
Proof.
  apply (all_empty_shows_no_data brl_only 19000%Z 19724%Z
           ["USDARS=X"; "USDMXN=X"]%string).
  - discriminate.
  - repeat constructor; eexists; (split; [reflexivity|]); intros; discriminate.
  - reflexivity.
Defined.

(** X14: when the provider raises for one of the selected tickers, the
    ones before it having been answered, [download_currency_data]
    raises that exception and [display_currency_data] catches it: the
    page writes one error line with the text of the exception. *)
Theorem provider_error_shows_error_line
        (yf_download : provider) (start_date end_date : date)
        (pre post labels : list string) (ticker : string) (e : exn) :
  well_answered yf_download start_date end_date pre ->
  yf_download ticker start_date end_date = Raise e ->
  download_currency_data yf_download (pre ++ ticker :: post)
                         start_date end_date
  = Raise e
  /\ display_currency_data yf_download (pre ++ ticker :: post) labels
                           start_date end_date
     = Ok [Write ("Erro ao baixar os dados: " ++ exc_str e)%string].
Proof.
  intros Hw He.
  assert (download_currency_data yf_download (pre ++ ticker :: post)
                                 start_date end_date = Raise e) as Hd.
  { unfold download_currency_data.
    rewrite (download_loop_app _ _ _ _ _ [] [] Hw).
    cbn [download_loop]. by rewrite He. }
  split; [exact Hd|].
  unfold display_currency_data.
  destruct (pre ++ ticker :: post) as [|t ts] eqn:E; [by destruct pre|].
  unfold display_try, relabelled. by rewrite Hd.
Qed.

Lemma provider_error_shows_error_line_witness :
  download_currency_data brl_then_error ["USDBRL=X"; "USDARS=X"]%string
                         19000%Z 19724%Z
  = Raise timeout_error
  /\ display_currency_data brl_then_error ["USDBRL=X"; "USDARS=X"]%string
                           ["Real (BRL)"; "Peso Argentino (ARS)"]%string
                           19000%Z 19724%Z
     = Ok [Write ("Erro ao baixar os dados: " ++ exc_str timeout_error)%string].
Proof.
  apply (provider_error_shows_error_line brl_then_error 19000%Z 19724%Z
           ["USDBRL=X"%string] []).
  - repeat constructor; eexists; (split; [reflexivity|]); intros; reflexivity.
  - reflexivity.
Defined.

Lemma scatter_of_column df column axis :
  column ∈ df_columns df ->
  exists y,
    scatter df column axis = Ok (Scatter column (df_index df) y axis)
    /\ length y = length (df_index df).
Proof.
  intros Hin. unfold scatter, getitem.
  destruct (position_elem _ _ Hin) as [j ->]. cbn [Py.bind].
  eexists. split; [reflexivity|]. unfold df_index. by rewrite !length_map.
Qed.

(** The lines on the main axis: every column but the peso, in order. *)
Lemma main_traces_of_columns df columns :
  Forall (fun c => c ∈ df_columns df) columns ->
  exists ts,
    main_traces df columns = Ok ts
    /\ map trace_name ts
       = List.filter (fun c => negb (String.eqb c ars)) columns
    /\ Forall (fun t => trace_yaxis t = "y1"%string
                        /\ String.eqb (trace_name t) ars = false
                        /\ trace_x t = df_index df
                        /\ length (trace_y t) = length (trace_x t)) ts.
Proof.
  induction 1 as [|c columns Hc _ (ts & Hts & Hnames & Hall)].
  - exists []. by repeat split.
  - cbn [main_traces List.filter].
    destruct (String.eqb c ars) eqn:E; cbn [negb].
    + exists ts. by repeat split.
    + destruct (scatter_of_column df c "y1"%string Hc) as (y & -> & Hy).
      cbn [Py.bind]. rewrite Hts. cbn [Py.bind].
      eexists. split; [reflexivity|]. split; [simpl; by rewrite Hnames|].
      constructor; [|done]. by repeat split.
Qed.

(** With data for every ticker the downloaded table has the tickers
    as its columns and at least one row. *)
Lemma download_all_present
      (yf_download : provider) (start_date end_date : date) tickers :
  tickers <> [] ->
  well_answered yf_download start_date end_date tickers ->
  List.filter (has_data yf_download start_date end_date) tickers = tickers ->
  exists row rows,
    download_currency_data yf_download tickers start_date end_date
    = Ok (Frame tickers (row :: rows)).
Proof.
  intros Hne Hw Hall.
  pose proof (fun t => kept_has_rows yf_download start_date end_date
                                     tickers t Hw) as Hrows.
  unfold download_currency_data.
  rewrite (download_loop_keeps _ _ _ _ [] [] Hw), Hall in *.
  destruct tickers as [|t0 ts]; [done|]. cbn [Py.bind fst snd app map].
  destruct (Hrows t0) as (r & rs & Hr); [by left|]. rewrite Hr.
  pose proof (concat_columns_not_empty r rs
                (map (close_of yf_download start_date end_date) ts)
                t0 ts) as Hc.
  unfold df_empty in Hc. unfold concat_columns in *.
  cbn [df_columns df_rows] in Hc.
  destruct (map _ (union_indexes _)) as [|row rows]; [done|].
  by exists row, rows.
Qed.

(** X15: when every selected ticker has data, the page draws the chart
    with one line per selected label: the labels other than the
    Argentine peso in request order on axis y1, then the peso, if
    selected, on axis y2; every line has one value per date of the
    table. *)
Theorem chart_when_all_present
        (yf_download : provider) (start_date end_date : date)
        (tickers labels : list string) :
  tickers <> [] ->
  well_answered yf_download start_date end_date tickers ->
  List.filter (has_data yf_download start_date end_date) tickers = tickers ->
  length labels = length tickers ->
  exists traces,
    display_currency_data yf_download tickers labels start_date end_date
    = Ok [Subheader
            "Gráfico de Linha Interativo: Valores Selecionados"%string;
          Chart traces]
    /\ map trace_name traces
       = List.filter (fun c => negb (String.eqb c ars)) labels
           ++ (if bool_decide (ars ∈ labels) then [ars] else [])
    /\ Forall (fun t => trace_yaxis t
                        = if String.eqb (trace_name t) ars
                          then "y2"%string else "y1"%string) traces
    /\ Forall (fun t => length (trace_y t) = length (trace_x t)) traces.
Proof.
  intros Hne Hw Hall Hlen.
  destruct (download_all_present _ _ _ _ Hne Hw Hall) as (row & rows & Hd).
  destruct tickers as [|t0 ts]; [done|].
  cbn [display_currency_data]. unfold display_try, relabelled. rewrite Hd.
  cbn [Py.bind df_empty df_columns df_rows].
  unfold set_columns, width. cbn [df_columns df_rows].
  rewrite <- Hlen, Nat.eqb_refl. cbn [Py.bind].
  set (table := Frame labels (row :: rows)).
  assert (df_empty table = false) as Hnonempty.
  { unfold df_empty. subst table. cbn [df_columns df_rows].
    destruct labels; [simpl in Hlen; lia|done]. }
  rewrite Hnonempty. cbn [negb].
  destruct (main_traces_of_columns table (df_columns table))
    as (main & -> & Hnames & Hmain).
  { apply Forall_forall. by intros c Hc. }
  cbn [Py.bind]. unfold has_column. cbn [df_columns table].
  destruct (bool_decide (ars ∈ labels)) eqn:Hars.
  - apply bool_decide_eq_true in Hars.
    destruct (scatter_of_column table ars "y2"%string Hars) as (y & -> & Hy).
    cbn [Py.bind try_except]. eexists. split; [reflexivity|].
    split; [by rewrite map_app, Hnames|]. split.
    + apply Forall_app. split.
      * eapply Forall_impl; [exact Hmain|]. intros t (-> & -> & _). done.
      * constructor; [|done]. reflexivity.
    + apply Forall_app. split.
      * eapply Forall_impl; [exact Hmain|]. by intros t (_ & _ & _ & ->).
      * constructor; [|done]. exact Hy.
  - cbn [Py.bind try_except]. eexists. split; [reflexivity|].
    split; [by rewrite map_app, Hnames|]. split.
    + apply Forall_app. split; [|done].
      eapply Forall_impl; [exact Hmain|]. intros t (-> & -> & _). done.
    + apply Forall_app. split; [|done].
      eapply Forall_impl; [exact Hmain|]. by intros t (_ & _ & _ & ->).
Qed.

Lemma chart_when_all_present_witness :
  exists traces,
    display_currency_data (always two_days) ["USDBRL=X"; "USDARS=X"]%string
                          ["Real (BRL)"; "Peso Argentino (ARS)"]%string
                          19000%Z 19724%Z
    = Ok [Subheader
            "Gráfico de Linha Interativo: Valores Selecionados"%string;
          Chart traces]
    /\ map trace_name traces
       = ["Real (BRL)"; "Peso Argentino (ARS)"]%string
    /\ Forall (fun t => trace_yaxis t
                        = if String.eqb (trace_name t) ars
                          then "y2"%string else "y1"%string) traces
    /\ Forall (fun t => length (trace_y t) = length (trace_x t)) traces.
Proof.
  apply (chart_when_all_present (always two_days) 19000%Z 19724%Z
           ["USDBRL=X"; "USDARS=X"]%string
           ["Real (BRL)"; "Peso Argentino (ARS)"]%string).
  - discriminate.
  - repeat constructor; eexists; (split; [reflexivity|]); intros; reflexivity.
  - reflexivity.
  - reflexivity.
Defined.

(** X16: for every selection made from the offered tickers the labels
    are found: one label per selected ticker, in the order of the
    selection, each the label the table gives for its ticker. *)
Theorem labels_of_offered_tickers (selected_tickers : list string) :
  Forall (fun t => In t tickers) selected_tickers ->
  exists labels,
    selected_labels selected_tickers = Ok labels
    /\ Forall2 (fun t l => In (t, l) ticker_labels) selected_tickers labels.
Proof.
  induction 1 as [|t ts Ht _ (labels & Hl & Hall)].
  - exists []. split; [reflexivity|constructor].
  - cbn [selected_labels].
    assert (exists l, label_of t = Ok l /\ In (t, l) ticker_labels)
      as (l & -> & Hin).
    { simpl in Ht.
      destruct Ht as [<-|[<-|[<-|[<-|[<-|[]]]]]];
        eexists; (split; [reflexivity|]); simpl; tauto. }
    cbn [Py.bind]. rewrite Hl. cbn [Py.bind].
    exists (l :: labels). split; [reflexivity|]. by constructor.
Qed.

Lemma labels_of_offered_tickers_witness :
  exists labels,
    selected_labels ["USDINR=X"; "USDBRL=X"]%string = Ok labels
    /\ Forall2 (fun t l => In (t, l) ticker_labels)
               ["USDINR=X"; "USDBRL=X"]%string labels.
Proof.
  apply (labels_of_offered_tickers ["USDINR=X"; "USDBRL=X"]%string).
  repeat constructor; simpl; tauto.
Defined.

Lemma display_try_writes (yf_download : provider)
      (selected_tickers labels : list string) (start_date end_date : date) ws :
  display_try yf_download selected_tickers labels start_date end_date = Ok ws ->
  ws <> [].
Proof.
  unfold display_try.
  destruct (relabelled _ _ _ _ _) as [[table|]|]; cbn [Py.bind];
    [| by intros [= <-] | discriminate].
  destruct (negb (df_empty table)); [|by intros [= <-]].
  destruct (main_traces _ _); cbn [Py.bind]; [|discriminate].
  destruct (has_column ars table).
  - destruct (scatter _ _ _); cbn [Py.bind]; [|discriminate].
    by intros [= <-].
  - cbn [Py.bind]. by intros [= <-].
Qed.

(** X17: whatever the provider does, answer, return nothing or raise,
    the series part of the page never raises for a selection made from
    the offered tickers, and it always writes something: a chart, a
    notice or an error line. *)
Theorem series_section_always_renders
        (yf_download : provider) (selected_tickers : list string)
        (start_date end_date : date) :
  Forall (fun t => In t tickers) selected_tickers ->
  exists ws,
    series_section yf_download selected_tickers start_date end_date = Ok ws
    /\ ws <> [].
Proof.
  intros Hsel. unfold series_section.
  assert (exists labels, selected_labels selected_tickers = Ok labels)
    as [labels ->].
  { clear yf_download start_date end_date.
    induction Hsel as [|t ts Ht _ [labels Hl]]; [by eexists|].
    cbn [selected_labels]. rewrite Hl.
    simpl in Ht. destruct Ht as [<-|[<-|[<-|[<-|[<-|[]]]]]]; by eexists. }
  cbn [Py.bind]. unfold display_currency_data.
  destruct selected_tickers as [|t ts]; [by eexists|].
  destruct (display_try yf_download (t :: ts) labels start_date end_date)
    as [ws|e] eqn:E; cbn [try_except].
  - exists ws. split; [done|]. by eapply display_try_writes.
  - by eexists.
Qed.

Lemma series_section_always_renders_witness :
  exists ws,
    series_section brl_then_error ["USDBRL=X"; "USDARS=X"]%string
                   19000%Z 19724%Z = Ok ws
    /\ ws <> [].
Proof.
  apply (series_section_always_renders brl_then_error
           ["USDBRL=X"; "USDARS=X"]%string 19000%Z 19724%Z).
  repeat constructor; simpl; tauto.
Defined.

End SeriesMore.
